(** * Aliyun-drive automatic sign-in: a shallow embedding of [app.py],
      [modules/telegram.py] and [modules/pushplus.py], and the properties of
      the sign-in session and of the notification fan-out.

    Conventions of the embedding.
    - A Python value that comes out of [json()] or of the configuration is a
      [pyval]; integers are unbounded ([Z]); JSON floats are not modelled.
    - A Python [str] is a Rocq [string], read as its UTF-8 bytes.  The
      operations that work per character ([lower], [strip], slicing, [repr])
      are exact on ASCII text, which is what credentials, channel names and
      settings are.
    - A statement that can raise returns a [res]; code that calls the network
      lives in the monad [M], which reads the [world] (the answers of the
      remote services) and writes the list of [event]s it performs.
    - Logging is not modelled: no call to [logging] can raise on these
      values, and nothing reads the log back. *)

From Stdlib Require Import ZArith List String Ascii Bool Lia DecimalString.
Import ListNotations.
Open Scope string_scope.
Open Scope Z_scope.

(** ** Python values and exceptions *)

#[warnings="-register-all"]
Inductive pyval : Type :=
| PNone
| PBool (b : bool)
| PInt (z : Z)
| PStr (s : string)
| PList (l : list pyval)
| PDict (d : list (string * pyval)).

Inductive exn : Type :=
| KeyError (k : pyval)
| TypeError
| AttributeError
| IndexError
| RequestException
| JSONDecodeError.

Inductive res (A : Type) : Type :=
| Ret (a : A)
| Raise (e : exn).
Arguments Ret {A} a.
Arguments Raise {A} e.

Definition rbind {A B} (r : res A) (k : A -> res B) : res B :=
  match r with
  | Ret a => k a
  | Raise e => Raise e
  end.

Declare Scope res_scope.
Delimit Scope res_scope with res.
Notation "x <- r ;; k" := (rbind r (fun x => k))
  (at level 61, r at next level, right associativity) : res_scope.

(** [bool(v)]: the truth value Python gives a value. *)
Definition py_truthy (v : pyval) : bool :=
  match v with
  | PNone => false
  | PBool b => b
  | PInt z => negb (z =? 0)
  | PStr s => negb (String.eqb s "")
  | PList l => match l with [] => false | _ => true end
  | PDict d => match d with [] => false | _ => true end
  end.

(** [a or b] *)
Definition py_or (a b : pyval) : pyval := if py_truthy a then a else b.

(** [v == 'literal'] for a string literal. *)
Definition py_eq_str (v : pyval) (s : string) : bool :=
  match v with
  | PStr t => String.eqb t s
  | _ => false
  end.

Fixpoint dict_get (d : list (string * pyval)) (k : string) : option pyval :=
  match d with
  | [] => None
  | (k', v) :: d' => if String.eqb k' k then Some v else dict_get d' k
  end.

(** [v[k]] for a string key [k]. *)
Definition getitem_str (v : pyval) (k : string) : res pyval :=
  match v with
  | PDict d => match dict_get d k with
               | Some x => Ret x
               | None => Raise (KeyError (PStr k))
               end
  | _ => Raise TypeError
  end.

Fixpoint string_chars (s : string) : list string :=
  match s with
  | EmptyString => []
  | String c s' => String c EmptyString :: string_chars s'
  end.

(** [v[i]] for an integer index [i]; a negative index counts from the end. *)
Definition getitem_int (v : pyval) (i : Z) : res pyval :=
  match v with
  | PList l =>
      let n := Z.of_nat (List.length l) in
      let j := if i <? 0 then i + n else i in
      if (j <? 0) || (n <=? j) then Raise IndexError
      else match nth_error l (Z.to_nat j) with
           | Some x => Ret x
           | None => Raise IndexError
           end
  | PStr s =>
      let l := string_chars s in
      let n := Z.of_nat (List.length l) in
      let j := if i <? 0 then i + n else i in
      if (j <? 0) || (n <=? j) then Raise IndexError
      else match nth_error l (Z.to_nat j) with
           | Some x => Ret (PStr x)
           | None => Raise IndexError
           end
  | PDict _ => Raise (KeyError (PInt i))
  | _ => Raise TypeError
  end.

Definition is_substring (k s : string) : bool :=
  match String.index 0 k s with
  | Some _ => true
  | None => false
  end.

(** ['k' in v] for a string literal [k]. *)
Definition py_contains_str (k : string) (v : pyval) : res bool :=
  match v with
  | PDict d => Ret (match dict_get d k with Some _ => true | None => false end)
  | PList l => Ret (existsb (fun x => py_eq_str x k) l)
  | PStr s => Ret (is_substring k s)
  | _ => Raise TypeError
  end.

(** The sequence a [for] loop walks through. *)
Definition py_iter (v : pyval) : res (list pyval) :=
  match v with
  | PList l => Ret l
  | PDict d => Ret (map (fun kv => PStr (fst kv)) d)
  | PStr s => Ret (map PStr (string_chars s))
  | _ => Raise TypeError
  end.

(** ** Text: [str()], [repr()] and [json.dumps(_, indent=2, ensure_ascii=False)] *)

Definition str_of_Z (z : Z) : string := NilZero.string_of_int (Z.to_int z).

Definition hex_digit (n : N) : ascii :=
  match n with
  | 0%N => "0" | 1%N => "1" | 2%N => "2" | 3%N => "3" | 4%N => "4"
  | 5%N => "5" | 6%N => "6" | 7%N => "7" | 8%N => "8" | 9%N => "9"
  | 10%N => "a" | 11%N => "b" | 12%N => "c" | 13%N => "d" | 14%N => "e"
  | _ => "f"
  end%char.

Definition hex2 (c : ascii) : string :=
  let n := N_of_ascii c in
  String (hex_digit (n / 16)) (String (hex_digit (n mod 16)) "").

Fixpoint string_mem (c : ascii) (s : string) : bool :=
  match s with
  | EmptyString => false
  | String c' s' => Ascii.eqb c c' || string_mem c s'
  end.

Definition nl : string := String (ascii_of_N 10) "".
Definition bslash : string := String (ascii_of_N 92) "".
Definition dquote : string := String (ascii_of_N 34) "".
Definition squote : string := String (ascii_of_N 39) "".

(** One character of [repr(s)], [q] being the quote chosen for the string. *)
Definition repr_char (q : ascii) (c : ascii) : string :=
  let n := N_of_ascii c in
  if Ascii.eqb c q then bslash ++ String c ""
  else if (n =? 92)%N then bslash ++ bslash
  else if (n =? 10)%N then bslash ++ "n"
  else if (n =? 13)%N then bslash ++ "r"
  else if (n =? 9)%N then bslash ++ "t"
  else if (n <? 32)%N || (n =? 127)%N then bslash ++ "x" ++ hex2 c
  else String c "".

Fixpoint concat_map_chars (f : ascii -> string) (s : string) : string :=
  match s with
  | EmptyString => ""
  | String c s' => f c ++ concat_map_chars f s'
  end.

Definition py_repr_str (s : string) : string :=
  let q := if string_mem (ascii_of_N 39) s && negb (string_mem (ascii_of_N 34) s)
           then ascii_of_N 34 else ascii_of_N 39 in
  String q "" ++ concat_map_chars (repr_char q) s ++ String q "".

Fixpoint join (sep : string) (l : list string) : string :=
  match l with
  | [] => ""
  | [x] => x
  | x :: l' => x ++ sep ++ join sep l'
  end.

Fixpoint py_repr (v : pyval) : string :=
  match v with
  | PNone => "None"
  | PBool true => "True"
  | PBool false => "False"
  | PInt z => str_of_Z z
  | PStr s => py_repr_str s
  | PList l => "[" ++ join ", " (map py_repr l) ++ "]"
  | PDict d =>
      "{" ++ join ", " (map (fun kv => py_repr_str (fst kv) ++ ": " ++ py_repr (snd kv)) d) ++ "}"
  end.

(** [str(v)], which is what an f-string field [{v}] prints. *)
Definition py_str (v : pyval) : string :=
  match v with
  | PStr s => s
  | _ => py_repr v
  end.

(** One character of a JSON string literal with [ensure_ascii=False]. *)
Definition json_char (c : ascii) : string :=
  let n := N_of_ascii c in
  if (n =? 34)%N then bslash ++ dquote
  else if (n =? 92)%N then bslash ++ bslash
  else if (n =? 10)%N then bslash ++ "n"
  else if (n =? 13)%N then bslash ++ "r"
  else if (n =? 9)%N then bslash ++ "t"
  else if (n =? 8)%N then bslash ++ "b"
  else if (n =? 12)%N then bslash ++ "f"
  else if (n <? 32)%N then bslash ++ "u00" ++ hex2 c
  else String c "".

Definition json_string (s : string) : string :=
  dquote ++ concat_map_chars json_char s ++ dquote.

Fixpoint spaces (n : nat) : string :=
  match n with
  | O => ""
  | S n' => " " ++ spaces n'
  end.

(** [json.dumps(v, indent=2, ensure_ascii=False)] at nesting depth [depth]. *)
Fixpoint json_dumps_at (depth : nat) (v : pyval) : string :=
  match v with
  | PNone => "null"
  | PBool true => "true"
  | PBool false => "false"
  | PInt z => str_of_Z z
  | PStr s => json_string s
  | PList [] => "[]"
  | PList l =>
      let ind := nl ++ spaces (2 * S depth) in
      "[" ++ ind ++ join ("," ++ ind) (map (json_dumps_at (S depth)) l)
          ++ nl ++ spaces (2 * depth) ++ "]"
  | PDict [] => "{}"
  | PDict d =>
      let ind := nl ++ spaces (2 * S depth) in
      "{" ++ ind
          ++ join ("," ++ ind)
               (map (fun kv => json_string (fst kv) ++ ": " ++ json_dumps_at (S depth) (snd kv)) d)
          ++ nl ++ spaces (2 * depth) ++ "}"
  end.

Definition json_dumps (v : pyval) : string := json_dumps_at 0 v.

(** ** Strings: slicing, [lower], [strip] *)

(** An index of a slice, clamped into [0 .. n] as Python does. *)
Definition clamp_index (n : Z) (i : option Z) (default : Z) : Z :=
  match i with
  | None => default
  | Some k => if k <? 0 then Z.max 0 (k + n) else Z.min k n
  end.

(** [s[start:stop]]; a slice never raises. *)
Definition py_slice (s : string) (start stop : option Z) : string :=
  let n := Z.of_nat (String.length s) in
  let a := clamp_index n start 0 in
  let b := clamp_index n stop n in
  substring (Z.to_nat a) (Z.to_nat (b - a)) s.

(** ['*' * n] *)
Fixpoint stars (n : nat) : string :=
  match n with
  | O => ""
  | S n' => String "*" (stars n')
  end.

Definition lower_char (c : ascii) : ascii :=
  let n := N_of_ascii c in
  if (65 <=? n)%N && (n <=? 90)%N then ascii_of_N (n + 32) else c.

Definition py_lower (s : string) : string :=
  concat_map_chars (fun c => String (lower_char c) "") s.

Definition is_space (c : ascii) : bool :=
  let n := N_of_ascii c in
  ((9 <=? n)%N && (n <=? 13)%N) || ((28 <=? n)%N && (n <=? 32)%N).

Fixpoint lstrip (s : string) : string :=
  match s with
  | EmptyString => ""
  | String c s' => if is_space c then lstrip s' else s
  end.

(** [rstrip]: a character is kept when it is not a space or when something
    is kept after it. *)
Fixpoint rstrip (s : string) : string :=
  match s with
  | EmptyString => ""
  | String c s' =>
      match rstrip s' with
      | EmptyString => if is_space c then "" else String c ""
      | r => String c r
      end
  end.

Definition py_strip (s : string) : string := rstrip (lstrip s).

(** ** The network, the events and the monad of effects *)

Record request : Type := {
  url : string;
  headers : list (string * string);
  json_payload : pyval;
  proxies : pyval;
  timeout : option Z
}.

(** What [requests.post] gives back: the status, the body as text, and what
    [.json()] does on it (a value, or [JSONDecodeError]). *)
Record response : Type := {
  status_code : Z;
  text : string;
  json_body : res pyval
}.

Inductive event : Type :=
| EvPost (r : request)
| EvPush (channel : string).

(** The world answers every request (or raises inside [requests.post]).
    The channel modules [dingtalk], [serverchan], [pushdeer] and [smtp] are
    imported by [app.py] but are not among the sources at hand: what their
    [push(config, content, content_html, title)] returns or raises is a
    parameter of the world, indexed by the channel name. *)
Record world : Type := {
  http_post : request -> res response;
  absent_push : string -> pyval -> pyval -> pyval -> pyval -> res pyval
}.

Definition M (A : Type) : Type := world -> list event * res A.

Definition ret {A} (a : A) : M A := fun _ => ([], Ret a).

Definition bind {A B} (m : M A) (k : A -> M B) : M B :=
  fun w =>
    match m w with
    | (t1, Ret a) => let (t2, r) := k a w in ((t1 ++ t2)%list, r)
    | (t1, Raise e) => (t1, Raise e)
    end.

Definition lift {A} (r : res A) : M A := fun _ => ([], r).

Definition emit (ev : event) : M unit := fun _ => ([ev], Ret tt).

(** [try: m  except Exception: h] *)
Definition try_except {A} (m : M A) (h : exn -> M A) : M A :=
  fun w =>
    match m w with
    | (t1, Ret a) => (t1, Ret a)
    | (t1, Raise e) => let (t2, r) := h e w in ((t1 ++ t2)%list, r)
    end.

Declare Scope M_scope.
Delimit Scope M_scope with M.
Notation "x <- m ;; k" := (bind m (fun x => k))
  (at level 61, m at next level, right associativity) : M_scope.
Notation "m ;;; k" := (bind m (fun _ => k))
  (at level 61, right associativity) : M_scope.

Definition requests_post (req : request) : M response :=
  fun w => ([EvPost req], http_post w req).

(** [requests.post(...).json()] *)
Definition post_json (req : request) : M pyval :=
  (resp <- requests_post req ;; lift (json_body resp))%M.

(** The requests made, and the channels entered, in a list of events. *)
Fixpoint posts (t : list event) : list request :=
  match t with
  | [] => []
  | EvPost r :: t' => r :: posts t'
  | EvPush _ :: t' => posts t'
  end.

Fixpoint pushed (t : list event) : list string :=
  match t with
  | [] => []
  | EvPost _ :: t' => pushed t'
  | EvPush c :: t' => c :: pushed t'
  end.

(** ** [class SignIn] of [app.py] *)

Module SignIn.

Record t : Type := {
  config : pyval;
  refresh_token : string;
  hide_refresh_token : string;
  access_token : pyval;
  new_refresh_token : pyval;
  phone : pyval;
  signin_count : pyval;
  signin_reward : pyval;
  error : pyval
}.

(** What [run] returns: a dict with these seven keys. *)
Record Result : Type := {
  success : bool;
  user : pyval;
  result_refresh_token : pyval;
  count : pyval;
  reward : pyval;
  result_text : string;
  text_html : string
}.

(** [__hide_refresh_token]: the body is three slices, which never raise, so
    the [except IndexError] arm that returns the token as it is never runs. *)
Definition __hide_refresh_token (refresh_token : string) : res string :=
  match
    Ret (py_slice refresh_token None (Some 4)
         ++ stars (String.length (py_slice refresh_token (Some 4) (Some (-4))))
         ++ py_slice refresh_token (Some (-4)) None)
  with
  | Raise IndexError => Ret refresh_token
  | r => r
  end.

Definition __init__ (config : pyval) (refresh_token : string) : res t :=
  (hidden <- __hide_refresh_token refresh_token ;;
   Ret {| config := config;
          refresh_token := refresh_token;
          hide_refresh_token := hidden;
          access_token := PNone;
          new_refresh_token := PNone;
          phone := PNone;
          signin_count := PInt 0;
          signin_reward := PNone;
          error := PNone |})%res.

Definition set_error (self : t) (v : pyval) : t :=
  {| config := config self; refresh_token := refresh_token self;
     hide_refresh_token := hide_refresh_token self;
     access_token := access_token self;
     new_refresh_token := new_refresh_token self; phone := phone self;
     signin_count := signin_count self; signin_reward := signin_reward self;
     error := v |}.

Definition set_session (self : t) (at_ nrt un : pyval) : t :=
  {| config := config self; refresh_token := refresh_token self;
     hide_refresh_token := hide_refresh_token self;
     access_token := at_; new_refresh_token := nrt; phone := un;
     signin_count := signin_count self; signin_reward := signin_reward self;
     error := error self |}.

Definition set_signin (self : t) (cnt rew : pyval) : t :=
  {| config := config self; refresh_token := refresh_token self;
     hide_refresh_token := hide_refresh_token self;
     access_token := access_token self;
     new_refresh_token := new_refresh_token self; phone := phone self;
     signin_count := cnt; signin_reward := rew;
     error := error self |}.

Definition token_request (refresh_token : string) : request :=
  {| url := "https://auth.aliyundrive.com/v2/account/token";
     headers := [];
     json_payload := PDict [("grant_type", PStr "refresh_token");
                            ("refresh_token", PStr refresh_token)];
     proxies := PNone;
     timeout := None |}.

Definition invalid_codes : list string :=
  ["RefreshTokenExpired"; "InvalidParameter.RefreshToken"].

(** [try: data['code'] in [...]  except KeyError: pass] *)
Definition code_is_invalid (data : pyval) : res bool :=
  match getitem_str data "code" with
  | Ret c => Ret (existsb (py_eq_str c) invalid_codes)
  | Raise (KeyError _) => Ret false
  | Raise e => Raise e
  end.

Definition __get_access_token (self : t) : M (t * bool) :=
  (data <- post_json (token_request (refresh_token self)) ;;
   invalid <- lift (code_is_invalid data) ;;
   if invalid : bool then ret (set_error self data, false)
   else
     at_ <- lift (getitem_str data "access_token") ;;
     nrt <- lift (getitem_str data "refresh_token") ;;
     un <- lift (getitem_str data "user_name") ;;
     ret (set_session self at_ nrt un, true))%M.

Definition signin_request (access_token : pyval) : request :=
  {| url := "https://member.aliyundrive.com/v1/activity/sign_in_list";
     headers := [("Authorization", "Bearer " ++ py_str access_token)];
     json_payload := PDict [];
     proxies := PNone;
     timeout := None |}.

(** The [for i, day in enumerate(logs)] loop from position [i] on: the
    value of [current_day] when the loop ends ([None] when no day is a
    miss). *)
Fixpoint scan_logs (logs : pyval) (i : Z) (days : list pyval) : res pyval :=
  match days with
  | [] => Ret PNone
  | day :: rest =>
      (st <- getitem_str day "status" ;;
       if py_eq_str st "miss" then getitem_int logs (i - 1)
       else scan_logs logs (i + 1) rest)%res
  end.

Definition current_day_of (logs : pyval) : res pyval :=
  (days <- py_iter logs ;; scan_logs logs 0 days)%res.

(** The text of the reward of a day. *)
Definition reward_of (current_day : pyval) : res string :=
  (flag <- getitem_str current_day "isReward" ;;
   if negb (py_truthy flag) then Ret "无奖励"
   else
     r1 <- getitem_str current_day "reward" ;;
     name <- getitem_str r1 "name" ;;
     r2 <- getitem_str current_day "reward" ;;
     description <- getitem_str r2 "description" ;;
     Ret ("获得 " ++ py_str name ++ " " ++ py_str description))%res.

(** Lines 107 to 117: from the month log to the reward text. *)
Definition streak_reward (logs : pyval) : res string :=
  (current_day <- current_day_of logs ;; reward_of current_day)%res.

Definition __sign_in (self : t) : M t :=
  (data <- post_json (signin_request (access_token self)) ;;
   has_success <- lift (py_contains_str "success" data) ;;
   if negb has_success then ret (set_error self data)
   else
     result <- lift (getitem_str data "result") ;;
     logs <- lift (getitem_str result "signInLogs") ;;
     rew <- lift (streak_reward logs) ;;
     result' <- lift (getitem_str data "result") ;;
     cnt <- lift (getitem_str result' "signInCount") ;;
     ret (set_signin self cnt (PStr rew)))%M.

Definition __generate_result (self : t) : Result :=
  let user := py_or (phone self) (PStr (hide_refresh_token self)) in
  let text :=
    if py_truthy (signin_count self)
    then "[" ++ py_str user ++ "] 签到成功, 本月累计签到 "
             ++ py_str (signin_count self) ++ " 天." ++ nl
             ++ "本次签到" ++ py_str (signin_reward self)
    else "[" ++ py_str user ++ "] 签到失败" ++ nl ++ json_dumps (error self) in
  let text_html :=
    if py_truthy (signin_count self)
    then "<code>" ++ py_str user ++ "</code> 签到成功, 本月累计签到 "
             ++ py_str (signin_count self) ++ " 天." ++ nl
             ++ "本次签到" ++ py_str (signin_reward self)
    else "<code>" ++ py_str user ++ "</code> 签到失败" ++ nl
             ++ "<code>" ++ json_dumps (error self) ++ "</code>" in
  {| success := if py_truthy (signin_count self) then true else false;
     user := py_or (phone self) (PStr (hide_refresh_token self));
     result_refresh_token :=
       py_or (new_refresh_token self) (PStr (refresh_token self));
     count := signin_count self;
     reward := signin_reward self;
     result_text := text;
     text_html := text_html |}.

(** [run]: the object after the run, and the dict returned. *)
Definition run (self : t) : M (t * Result) :=
  (r <- __get_access_token self ;;
   let '(self1, result) := r in
   self2 <- (if result : bool then __sign_in self1 else ret self1) ;;
   ret (self2, __generate_result self2))%M.

(** [SignIn(config=config, refresh_token=user).run()] *)
Definition session (config : pyval) (refresh_token : string) : M (t * Result) :=
  (self <- lift (__init__ config refresh_token) ;; run self)%M.

End SignIn.

(** ** [modules/telegram.py] *)

Module telegram.

(** [Pusher(endpoint, token, chat_id, proxy).send(title, content)] *)
Definition Pusher_send (endpoint token chat_id proxy : pyval)
    (title content : pyval) : M pyval :=
  (u <- lift (match endpoint with
              | PStr e => Ret (e ++ "/bot" ++ py_str token ++ "/sendMessage")
              | _ => Raise TypeError
              end) ;;
   resp <- requests_post
     {| url := u;
        headers := [];
        json_payload :=
          PDict [("chat_id", chat_id);
                 ("text", PStr ("<b>" ++ py_str title ++ "</b>" ++ nl ++ nl
                                ++ py_str content));
                 ("parse_mode", PStr "HTML")];
        proxies := if py_truthy proxy
                   then PDict [("http", proxy); ("https", proxy)]
                   else PNone;
        timeout := Some 10 |} ;;
   if status_code resp =? 200 then lift (json_body resp)
   else ret PNone)%M.

Definition push (config content content_html title : pyval) : M pyval :=
  (endpoint <- lift (getitem_str config "telegram_endpoint") ;;
   if negb (py_truthy endpoint) then ret (PBool false)
   else
     token <- lift (getitem_str config "telegram_bot_token") ;;
     if negb (py_truthy token) then ret (PBool false)
     else
       chat_id <- lift (getitem_str config "telegram_chat_id") ;;
       if negb (py_truthy chat_id) then ret (PBool false)
       else
         try_except
           (a1 <- lift (getitem_str config "telegram_endpoint") ;;
            a2 <- lift (getitem_str config "telegram_bot_token") ;;
            a3 <- lift (getitem_str config "telegram_chat_id") ;;
            a4 <- lift (getitem_str config "telegram_proxy") ;;
            Pusher_send a1 a2 a3 a4 title content_html ;;;
            ret (PBool true))
           (fun _ => ret (PBool false)))%M.

End telegram.

(** ** [modules/pushplus.py] *)

Module pushplus.

(** [Pusher(token).send(title, content)] *)
Definition Pusher_send (token : pyval) (title content : pyval) : M pyval :=
  post_json
    {| url := "http://www.pushplus.plus/send";
       headers := [];
       json_payload :=
         PDict [("token", token); ("title", title); ("content", content)];
       proxies := PNone;
       timeout := None |}.

Definition push (config content content_html title : pyval) : M pyval :=
  (token <- lift (getitem_str config "pushplus_token") ;;
   if negb (py_truthy token) then ret (PBool false)
   else
     try_except
       (a1 <- lift (getitem_str config "pushplus_token") ;;
        Pusher_send a1 title content ;;;
        ret (PBool true))
       (fun _ => ret (PBool false)))%M.

End pushplus.

(** ** [push] of [app.py]: the fan-out to the channels *)

Definition pusher : Type := pyval -> pyval -> pyval -> pyval -> M pyval.

(** A channel module that is not among the sources: its [push] is read from
    the world. *)
Definition absent_module (name : string) : pusher :=
  fun config content content_html title w =>
    ([], absent_push w name config content content_html title).

(** The dict literal of [push], in its order. *)
Definition pushers : list (string * pusher) :=
  [("dingtalk", absent_module "dingtalk");
   ("serverchan", absent_module "serverchan");
   ("pushdeer", absent_module "pushdeer");
   ("telegram", telegram.push);
   ("pushplus", pushplus.push);
   ("smtp", absent_module "smtp")].

Definition known_channels : list string := map fst pushers.

(** [i.lower().strip()] *)
Definition lower_strip (i : pyval) : res string :=
  match i with
  | PStr s => Ret (py_strip (py_lower s))
  | _ => Raise AttributeError
  end.

Fixpoint map_res {A B} (f : A -> res B) (l : list A) : res (list B) :=
  match l with
  | [] => Ret []
  | x :: l' => (y <- f x ;; ys <- map_res f l' ;; Ret (y :: ys))%res
  end.

Definition configured_push_types (config : pyval) : res (list string) :=
  (pt <- getitem_str config "push_types" ;;
   items <- match pt with
            | PStr _ => Ret [pt]
            | _ => py_iter pt
            end ;;
   map_res lower_strip items)%res.

Definition str_in (s : string) (l : list string) : bool :=
  existsb (String.eqb s) l.

(** The [for push_type, pusher in {...}.items()] loop over [items]. *)
Fixpoint push_loop (configured : list string) (items : list (string * pusher))
    (config content content_html title : pyval) : M unit :=
  match items with
  | [] => ret tt
  | (push_type, p) :: rest =>
      ((if str_in push_type configured
        then emit (EvPush push_type) ;;;
             p config content content_html title ;;;
             ret tt
        else ret tt) ;;;
       push_loop configured rest config content content_html title)%M
  end.

(** [push(config, content, content_html, title)]; it returns [None]. *)
Definition push (config content content_html title : pyval) : M pyval :=
  (configured <- lift (configured_push_types config) ;;
   push_loop configured pushers config content content_html title ;;;
   ret PNone)%M.

(** ** Vocabulary of the statements *)

(** The world answers [req] with a body that [.json()] reads as [data]. *)
Definition answers (w : world) (req : request) (data : pyval) : Prop :=
  exists resp, http_post w req = Ret resp /\ json_body resp = Ret data.

(** The credential exchange succeeded on [data]: no invalid-credential
    code, and the three fields are there. *)
Definition exchange_succeeds (data at_ nrt un : pyval) : Prop :=
  SignIn.code_is_invalid data = Ret false
  /\ getitem_str data "access_token" = Ret at_
  /\ getitem_str data "refresh_token" = Ret nrt
  /\ getitem_str data "user_name" = Ret un.

(** Whether a day of the month log has status [miss]. *)
Definition day_is_miss (day : pyval) : res bool :=
  (st <- getitem_str day "status" ;; Ret (py_eq_str st "miss"))%res.

(** A computation, or a channel's [push], that performs no fan-out of its
    own: it enters no channel. *)
Definition quietM {A} (m : M A) : Prop :=
  forall w, pushed (fst (m w)) = [].

Definition quiet (p : pusher) : Prop :=
  forall config content content_html title,
    quietM (p config content content_html title).

(** The settings of the Telegram channel are complete. *)
Definition telegram_configured (config endpoint token chat_id proxy : pyval) : Prop :=
  getitem_str config "telegram_endpoint" = Ret endpoint
  /\ py_truthy endpoint = true
  /\ getitem_str config "telegram_bot_token" = Ret token
  /\ py_truthy token = true
  /\ getitem_str config "telegram_chat_id" = Ret chat_id
  /\ py_truthy chat_id = true
  /\ getitem_str config "telegram_proxy" = Ret proxy.

(** The request [telegram.Pusher.send] posts. *)
Definition telegram_request (endpoint : string) (token chat_id proxy : pyval)
    (title content : pyval) : request :=
  {| url := endpoint ++ "/bot" ++ py_str token ++ "/sendMessage";
     headers := [];
     json_payload :=
       PDict [("chat_id", chat_id);
              ("text", PStr ("<b>" ++ py_str title ++ "</b>" ++ nl ++ nl
                             ++ py_str content));
              ("parse_mode", PStr "HTML")];
     proxies := if py_truthy proxy
                then PDict [("http", proxy); ("https", proxy)]
                else PNone;
     timeout := Some 10 |}.

(** The request [pushplus.Pusher.send] posts. *)
Definition pushplus_request (token title content : pyval) : request :=
  {| url := "http://www.pushplus.plus/send";
     headers := [];
     json_payload :=
       PDict [("token", token); ("title", title); ("content", content)];
     proxies := PNone;
     timeout := None |}.

(** ** Concrete responses, logs and configurations *)

Definition ok_response (data : pyval) : response :=
  {| status_code := 200; text := json_dumps data; json_body := Ret data |}.

(** A world whose token endpoint answers [exchange], whose sign-in endpoint
    answers [signin] and whose other URLs answer [other]. *)
Definition mk_world (exchange signin other : res response) : world :=
  {| http_post := fun req =>
       if String.eqb (url req) "https://auth.aliyundrive.com/v2/account/token"
       then exchange
       else if String.eqb (url req)
                 "https://member.aliyundrive.com/v1/activity/sign_in_list"
       then signin
       else other;
     absent_push := fun _ _ _ _ _ => Ret (PBool true) |}.

Definition ex_token : string := "0123456789abcdef0123456789abcdef".

Definition ex_exchange : pyval :=
  PDict [("access_token", PStr "eyJhbGciOi");
         ("refresh_token", PStr "fedcba9876543210fedcba9876543210");
         ("user_name", PStr "138***000")].

Definition ex_exchange_expired : pyval :=
  PDict [("code", PStr "RefreshTokenExpired");
         ("message", PStr "refresh token is expired")].

Definition ex_day (status : string) (is_reward : bool) (name : string) : pyval :=
  PDict [("day", PInt 1);
         ("status", PStr status);
         ("isReward", PBool is_reward);
         ("reward", PDict [("name", PStr name); ("description", PStr "x1")])].

Definition ex_signin (cnt : Z) (logs : list pyval) : pyval :=
  PDict [("success", PBool true);
         ("result", PDict [("signInCount", PInt cnt);
                           ("signInLogs", PList logs)])].

Definition ex_log_smss : list pyval :=
  [ex_day "normal" true "A"; ex_day "normal" false "B";
   ex_day "miss" false "C"; ex_day "normal" true "D"].

Definition ex_log_all_signed : list pyval :=
  [ex_day "normal" true "A"; ex_day "normal" false "B"].

Definition ex_signin_rejected : pyval :=
  PDict [("code", PStr "AccessTokenInvalid");
         ("message", PStr "not valid")].

Definition ex_config (push_types : pyval) : pyval :=
  PDict [("refresh_tokens", PStr ex_token);
         ("push_types", push_types);
         ("telegram_endpoint", PStr "https://api.telegram.org");
         ("telegram_bot_token", PStr "123:abc");
         ("telegram_chat_id", PStr "42");
         ("telegram_proxy", PStr "");
         ("pushplus_token", PStr "pp-token")].

Definition world_all_signed : world :=
  mk_world (Ret (ok_response ex_exchange))
           (Ret (ok_response (ex_signin 2 ex_log_all_signed)))
           (Raise RequestException).

Definition world_signed : world :=
  mk_world (Ret (ok_response ex_exchange))
           (Ret (ok_response (ex_signin 2 ex_log_smss)))
           (Ret (ok_response (PDict [("ok", PBool true)]))).

Definition world_zero_count : world :=
  mk_world (Ret (ok_response ex_exchange))
           (Ret (ok_response (ex_signin 0 ex_log_smss)))
           (Raise RequestException).

Definition world_signin_rejected : world :=
  mk_world (Ret (ok_response ex_exchange))
           (Ret (ok_response ex_signin_rejected))
           (Raise RequestException).

Definition world_expired : world :=
  mk_world (Ret (ok_response ex_exchange_expired))
           (Raise RequestException)
           (Raise RequestException).

(** Every channel request is answered with HTTP 403 and a JSON body. *)
Definition world_channels_403 : world :=
  mk_world (Raise RequestException) (Raise RequestException)
           (Ret {| status_code := 403;
                   text := "Forbidden";
                   json_body := Ret (PDict [("ok", PBool false)]) |}).

(** ** [get_config_from_env] and [main] of [app.py] *)

(** [os.environ], as the list of its variables. *)
Definition environment : Type := list (string * string).

Fixpoint env_lookup (environ : environment) (k : string) : option string :=
  match environ with
  | [] => None
  | (k', v) :: rest => if String.eqb k' k then Some v else env_lookup rest k
  end.

(** [environ[k]] *)
Definition env_get (environ : environment) (k : string) : res string :=
  match env_lookup environ k with
  | Some v => Ret v
  | None => Raise (KeyError (PStr k))
  end.

(** [environ[k] = v] *)
Fixpoint env_set (environ : environment) (k v : string) : environment :=
  match environ with
  | [] => [(k, v)]
  | (k', v') :: rest =>
      if String.eqb k' k then (k, v) :: rest else (k', v') :: env_set rest k v
  end.

Definition comma : ascii := ascii_of_N 44.

(** [s.split(',')] *)
Fixpoint split_comma (s : string) : list string :=
  match s with
  | EmptyString => [""]
  | String c s' =>
      if Ascii.eqb c comma then "" :: split_comma s'
      else match split_comma s' with
           | x :: l => String c x :: l
           | [] => [String c ""]
           end
  end.

(** [[environ[k]] if not environ[k] else environ[k].split(',')] *)
Definition env_list (environ : environment) (k : string) : res pyval :=
  (v <- env_get environ k ;;
   if negb (py_truthy (PStr v))
   then (v1 <- env_get environ k ;; Ret (PList [PStr v1]))
   else (v2 <- env_get environ k ;; Ret (PList (map PStr (split_comma v2)))))%res.

Definition env_str (environ : environment) (k : string) : res pyval :=
  (v <- env_get environ k ;; Ret (PStr v))%res.

(** [get_config_from_env]: the dict, or [None] when a variable is missing. *)
Definition get_config_from_env (environ : environment) : res pyval :=
  match
    (refresh_tokens <- env_list environ "REFRESH_TOKENS" ;;
     push_types <- env_list environ "PUSH_TYPES" ;;
     serverchan_send_key <- env_str environ "SERVERCHAN_SEND_KEY" ;;
     telegram_bot_token <- env_str environ "TELEGRAM_BOT_TOKEN" ;;
     telegram_chat_id <- env_str environ "TELEGRAM_CHAT_ID" ;;
     pushplus_token <- env_str environ "PUSHPLUS_TOKEN" ;;
     smtp_host <- env_str environ "SMTP_HOST" ;;
     smtp_port <- env_str environ "SMTP_PORT" ;;
     smtp_tls <- env_str environ "SMTP_TLS" ;;
     smtp_user <- env_str environ "SMTP_USER" ;;
     smtp_password <- env_str environ "SMTP_PASSWORD" ;;
     smtp_sender <- env_str environ "SMTP_SENDER" ;;
     smtp_receiver <- env_str environ "SMTP_RECEIVER" ;;
     Ret (PDict [("refresh_tokens", refresh_tokens);
                 ("push_types", push_types);
                 ("serverchan_send_key", serverchan_send_key);
                 ("telegram_endpoint", PStr "https://api.telegram.org");
                 ("telegram_bot_token", telegram_bot_token);
                 ("telegram_chat_id", telegram_chat_id);
                 ("telegram_proxy", PNone);
                 ("pushplus_token", pushplus_token);
                 ("smtp_host", smtp_host);
                 ("smtp_port", smtp_port);
                 ("smtp_tls", smtp_tls);
                 ("smtp_user", smtp_user);
                 ("smtp_password", smtp_password);
                 ("smtp_sender", smtp_sender);
                 ("smtp_receiver", smtp_receiver)]))%res
  with
  | Ret d => Ret d
  | Raise (KeyError _) => Ret PNone
  | Raise e => Raise e
  end.

(** The variables [get_config_from_env] reads. *)
Definition required_env : list string :=
  ["REFRESH_TOKENS"; "PUSH_TYPES"; "SERVERCHAN_SEND_KEY"; "TELEGRAM_BOT_TOKEN";
   "TELEGRAM_CHAT_ID"; "PUSHPLUS_TOKEN"; "SMTP_HOST"; "SMTP_PORT"; "SMTP_TLS";
   "SMTP_USER"; "SMTP_PASSWORD"; "SMTP_SENDER"; "SMTP_RECEIVER"].

Fixpoint dict_set (d : list (string * pyval)) (k : string) (v : pyval)
    : list (string * pyval) :=
  match d with
  | [] => [(k, v)]
  | (k', v') :: rest =>
      if String.eqb k' k then (k, v) :: rest else (k', v') :: dict_set rest k v
  end.

(** [c[k] = v] for a string key. *)
Definition setitem_str (c : pyval) (k : string) (v : pyval) : res pyval :=
  match c with
  | PDict d => Ret (PDict (dict_set d k v))
  | _ => Raise TypeError
  end.

(** [sep.join(l)]: every item has to be a [str]. *)
Definition py_join (sep : string) (l : list pyval) : res string :=
  (ss <- map_res (fun v => match v with
                           | PStr s => Ret s
                           | _ => Raise TypeError
                           end) l ;;
   Ret (join sep ss))%res.

(** What the process is started with, and the two collaborators of [main]
    that are not among the sources: the [ConfigObj] read of [config.ini] and
    [github.update_secret].  [exn_str] is [str(e)], the message Python
    attaches to an exception, which the embedding does not compute. *)
Record process : Type := {
  argv : list string;
  environ : environment;
  config_ini : res pyval;
  update_secret : string -> string -> res unit;
  exn_str : exn -> string
}.

(** What [main] leaves behind: the environment, the results it collected,
    the configuration object after the run ([None] of the option when no
    configuration was found) and the secret written, if one was. *)
Record main_state : Type := {
  environ_after : environment;
  results_of : list SignIn.Result;
  config_after : option pyval;
  secret_written : option string
}.

(** [len(argv) == 2 and argv[1] == 'action'] *)
Definition by_action_of (argv : list string) : bool :=
  match argv with
  | [_; a] => String.eqb a "action"
  | _ => false
  end.

(** [[config['refresh_tokens']] if type(...) == str else config['refresh_tokens']],
    as the list the [for] loop walks through. *)
Definition users_of (config : pyval) : res (list pyval) :=
  (rt <- getitem_str config "refresh_tokens" ;;
   match rt with
   | PStr _ => Ret [rt]
   | _ => py_iter rt
   end)%res.

(** [SignIn(config=config, refresh_token=user)]: a credential that is not a
    [str] makes [__hide_refresh_token] raise [TypeError] (for a dict this is
    Python up to 3.11; no configuration source yields one). *)
Definition new_SignIn (config user : pyval) : res SignIn.t :=
  match user with
  | PStr s => SignIn.__init__ config s
  | _ => Raise TypeError
  end.

(** The [for user in users] loop: the results, in the order of the users. *)
Fixpoint run_users (config : pyval) (users : list pyval)
    : M (list SignIn.Result) :=
  match users with
  | [] => ret []
  | user :: rest =>
      (self <- lift (new_SignIn config user) ;;
       r <- SignIn.run self ;;
       rs <- run_users config rest ;;
       ret (snd r :: rs))%M
  end.

Definition report_title : pyval := PStr "阿里云盘签到".

Definition report_text (results : list SignIn.Result) : string :=
  join (nl ++ nl) (map SignIn.result_text results).

Definition report_html (results : list SignIn.Result) : string :=
  join (nl ++ nl) (map SignIn.text_html results).

(** Lines 317 to 328: the credentials go back to the configuration object,
    or to the GitHub secret with an alert pushed when that fails. *)
Definition update_refresh_tokens (p : process) (by_action : bool)
    (config : pyval) (results : list SignIn.Result) : M main_state :=
  let new_users := map SignIn.result_refresh_token results in
  let env1 := env_set (environ p) "NO_PROXY" "*" in
  if negb by_action
  then
    (joined <- lift (py_join "," new_users) ;;
     config' <- lift (setitem_str config "refresh_tokens" (PStr joined)) ;;
     ret {| environ_after := env1; results_of := results;
            config_after := Some config'; secret_written := None |})%M
  else
    try_except
      (joined <- lift (py_join "," new_users) ;;
       lift (update_secret p "REFRESH_TOKENS" joined) ;;;
       ret {| environ_after := env1; results_of := results;
              config_after := Some config; secret_written := Some joined |})%M
      (fun e =>
         let err := "Action 更新 Github Secrets 失败: " ++ exn_str p e in
         (push config (PStr err) (PStr err) report_title ;;;
          ret {| environ_after := env1; results_of := results;
                 config_after := Some config; secret_written := None |})%M).

(** Lines 277 to 292: [NO_PROXY] is set, then the configuration is read
    from the environment or from [config.ini]. *)
Definition load_config (p : process) : res pyval :=
  let env1 := env_set (environ p) "NO_PROXY" "*" in
  if by_action_of (argv p) then get_config_from_env env1 else config_ini p.

(** [main].  [init_logger] is left out, logging not being modelled: it is
    taken to return. *)
Definition main (p : process) : M main_state :=
  let env1 := env_set (environ p) "NO_PROXY" "*" in
  let by_action := by_action_of (argv p) in
  (config <- lift (load_config p) ;;
   if negb (py_truthy config)
   then ret {| environ_after := env1; results_of := [];
               config_after := None; secret_written := None |}
   else
     users <- lift (users_of config) ;;
     results <- run_users config users ;;
     push config (PStr (report_text results)) (PStr (report_html results))
       report_title ;;;
     update_refresh_tokens p by_action config results)%M.

(** ** Concrete environments and processes *)

Definition ex_environ : environment :=
  [("REFRESH_TOKENS", ex_token);
   ("PUSH_TYPES", "Telegram,pushplus");
   ("SERVERCHAN_SEND_KEY", "");
   ("TELEGRAM_BOT_TOKEN", "123:abc");
   ("TELEGRAM_CHAT_ID", "42");
   ("PUSHPLUS_TOKEN", "pp-token");
   ("SMTP_HOST", ""); ("SMTP_PORT", ""); ("SMTP_TLS", "");
   ("SMTP_USER", ""); ("SMTP_PASSWORD", ""); ("SMTP_SENDER", "");
   ("SMTP_RECEIVER", "")].

Definition ex_process (args : list string) (ini : pyval)
    (secret : res unit) : process :=
  {| argv := args;
     environ := ex_environ;
     config_ini := Ret ini;
     update_secret := fun _ _ => secret;
     exn_str := fun _ => "error" |}.

(** Whether a string is made of whitespace only. *)
Fixpoint all_space (s : string) : bool :=
  match s with
  | EmptyString => true
  | String c s' => is_space c && all_space s'
  end.



(** An exchange that answers with an empty [refresh_token]. *)
Definition ex_exchange_empty_rotation : pyval :=
  PDict [("access_token", PStr "eyJhbGciOi");
         ("refresh_token", PStr "");
         ("user_name", PStr "138***000")].

Definition world_empty_rotation : world :=
  mk_world (Ret (ok_response ex_exchange_empty_rotation))
           (Ret (ok_response ex_signin_rejected))
           (Raise RequestException).


(** * Properties *)

(** ** Masking of the credential *)

Lemma length_append (s1 s2 : string) :
  String.length (s1 ++ s2) = (String.length s1 + String.length s2)%nat.
Proof.
  induction s1 as [|c s1 IH]; simpl; [reflexivity | now rewrite IH].
Qed.

Lemma length_stars (n : nat) : String.length (stars n) = n.
Proof.
  induction n as [|n IH]; simpl; [reflexivity | now rewrite IH].
Qed.

Lemma substring_zero_length (a : nat) (s : string) : substring a 0 s = "".
Proof.
  revert a; induction s as [|c s IH]; intros [|a]; simpl; auto.
Qed.

Lemma length_substring (s : string) :
  forall a b : nat,
    (a + b <= String.length s)%nat -> String.length (substring a b s) = b.
Proof.
  induction s as [|c s IH]; intros a b Hab; simpl in *.
  - assert (a = 0%nat) by lia. assert (b = 0%nat) by lia. subst. reflexivity.
  - destruct a as [|a].
    + destruct b as [|b]; simpl; [reflexivity|].
      f_equal. apply (IH 0%nat b). lia.
    + apply IH. lia.
Qed.

Lemma substring_split (s : string) :
  forall a : nat,
    (a <= String.length s)%nat ->
    s = substring 0 a s ++ substring a (String.length s - a) s.
Proof.
  induction s as [|c s IH]; intros a Ha; simpl in *.
  - assert (a = 0%nat) by lia. subst. reflexivity.
  - destruct a as [|a]; simpl.
    + f_equal. rewrite (IH 0%nat) at 1 by lia.
      rewrite substring_zero_length, Nat.sub_0_r. reflexivity.
    + f_equal. apply IH. lia.
Qed.

Lemma substring_substring (t : string) :
  forall a m b j : nat,
    (b + j <= m)%nat ->
    substring b j (substring a m t) = substring (a + b) j t.
Proof.
  induction t as [|c t IH]; intros a m b j Hj.
  - destruct a, m, b, j; reflexivity.
  - destruct a as [|a]; simpl.
    + destruct m as [|m].
      * assert (b = 0%nat) by lia. assert (j = 0%nat) by lia. subst. reflexivity.
      * destruct b as [|b]; simpl.
        -- destruct j as [|j]; [reflexivity|].
           f_equal. apply (IH 0%nat m 0%nat j). lia.
        -- apply (IH 0%nat m b j). lia.
    + apply IH. exact Hj.
Qed.

Lemma py_slice_head (s : string) :
  (4 <= String.length s)%nat -> py_slice s None (Some 4) = substring 0 4 s.
Proof.
  intros H. unfold py_slice, clamp_index. change (4 <? 0) with false. cbv iota.
  rewrite Z.min_l by lia. reflexivity.
Qed.

Lemma py_slice_middle (s : string) :
  (8 <= String.length s)%nat ->
  py_slice s (Some 4) (Some (-4)) = substring 4 (String.length s - 8) s.
Proof.
  intros H. unfold py_slice, clamp_index. change (4 <? 0) with false. change (-4 <? 0) with true. cbv iota.
  rewrite Z.min_l, Z.max_r by lia.
  f_equal; lia.
Qed.

Lemma py_slice_tail (s : string) :
  (4 <= String.length s)%nat ->
  py_slice s (Some (-4)) None = substring (String.length s - 4) 4 s.
Proof.
  intros H. unfold py_slice, clamp_index. change (-4 <? 0) with true. cbv iota.
  rewrite Z.max_r by lia.
  f_equal; lia.
Qed.

(** A credential of 8 characters or more: the first 4 and the last 4 stay,
    and each character between them becomes one star. *)
Lemma hide_refresh_token_long (s : string) :
  (8 <= String.length s)%nat ->
  SignIn.__hide_refresh_token s
  = Ret (substring 0 4 s ++ stars (String.length s - 8)
         ++ substring (String.length s - 4) 4 s)
  /\ s = substring 0 4 s ++ substring 4 (String.length s - 8) s
         ++ substring (String.length s - 4) 4 s.
Proof.
  intros H. split.
  - unfold SignIn.__hide_refresh_token.
    rewrite py_slice_head, py_slice_middle, py_slice_tail by lia.
    rewrite length_substring by lia. reflexivity.
  - rewrite (substring_split s 4) at 1 by lia. f_equal.
    set (r := substring 4 (String.length s - 4) s).
    assert (Hr : String.length r = (String.length s - 4)%nat)
      by (apply length_substring; lia).
    rewrite (substring_split r (String.length s - 8)) by lia.
    rewrite Hr. unfold r.
    rewrite !substring_substring by lia.
    f_equal. f_equal; lia.
Qed.

(** X2: A credential of 1 to 7 characters is not shown as it is: its display
    form is longer than the credential. *)
Lemma hide_refresh_token_short (s : string) :
  (0 < String.length s < 8)%nat ->
  exists shown,
    SignIn.__hide_refresh_token s = Ret shown
    /\ String.length shown = (2 * Nat.min 4 (String.length s))%nat
    /\ shown <> s.
Proof.
  intros H. eexists. split; [reflexivity|].
  assert (L : String.length
                (py_slice s None (Some 4)
                 ++ stars (String.length (py_slice s (Some 4) (Some (-4))))
                 ++ py_slice s (Some (-4)) None)
              = (2 * Nat.min 4 (String.length s))%nat).
  { rewrite !length_append, length_stars.
    unfold py_slice, clamp_index. change (4 <? 0) with false. change (-4 <? 0) with true. cbv iota.
    rewrite !length_substring by lia.
    lia. }
  split; [exact L|].
  intros E. rewrite E in L. lia.
Qed.

(** C4 (first half holds by [hide_refresh_token_long]; second half fails):
    a credential shorter than 8 characters is not displayed unchanged.  The
    three-character credential [abc] is displayed as [abcabc]: the slices
    never raise, so the [except IndexError] arm that would return the
    credential as it is does not run. *)
Theorem C4_short_credential_is_not_unchanged :
  SignIn.__hide_refresh_token "abc" = Ret "abcabc"
  /\ SignIn.__hide_refresh_token "abc" <> Ret "abc".
Proof.
  split; [reflexivity | discriminate].
Qed.

(** ** The monad of effects *)

Lemma bind_Ret {A B} (m : M A) (k : A -> M B) (w : world) t1 a :
  m w = (t1, Ret a) ->
  bind m k w = ((t1 ++ fst (k a w))%list, snd (k a w)).
Proof.
  intros H. unfold bind. rewrite H. destruct (k a w); reflexivity.
Qed.

Lemma bind_Raise {A B} (m : M A) (k : A -> M B) (w : world) t1 e :
  m w = (t1, Raise e) -> bind m k w = (t1, Raise e).
Proof.
  intros H. unfold bind. rewrite H. reflexivity.
Qed.

Lemma bind_lift_Ret {A B} (r : res A) (k : A -> M B) (w : world) a :
  r = Ret a -> bind (lift r) k w = k a w.
Proof.
  intros ->. unfold bind, lift. destruct (k a w); reflexivity.
Qed.

Lemma post_json_answers (w : world) (req : request) (data : pyval) :
  answers w req data -> post_json req w = ([EvPost req], Ret data).
Proof.
  intros (resp & H1 & H2).
  unfold post_json, bind, requests_post, lift. rewrite H1, H2. reflexivity.
Qed.

Lemma bind_post_json {B} (w : world) (req : request) (data : pyval)
    (k : pyval -> M B) :
  answers w req data ->
  bind (post_json req) k w = (EvPost req :: fst (k data w), snd (k data w)).
Proof.
  intros H. rewrite (bind_Ret _ _ _ _ _ (post_json_answers _ _ _ H)).
  reflexivity.
Qed.

(** ** Streak extraction *)

Lemma day_is_miss_inv (day : pyval) (b : bool) :
  day_is_miss day = Ret b ->
  exists st, getitem_str day "status" = Ret st /\ py_eq_str st "miss" = b.
Proof.
  unfold day_is_miss, rbind.
  destruct (getitem_str day "status") as [st|e]; [|discriminate].
  intros H. injection H as H. exists st. split; [reflexivity | exact H].
Qed.

Lemma scan_logs_first_miss (logs : pyval) :
  forall (pre : list pyval) (m : pyval) (post : list pyval) (i : Z),
    Forall (fun d => day_is_miss d = Ret false) pre ->
    day_is_miss m = Ret true ->
    SignIn.scan_logs logs i (pre ++ m :: post)
    = getitem_int logs (i + Z.of_nat (List.length pre) - 1).
Proof.
  induction pre as [|d pre IH]; intros m post i Hpre Hm.
  - destruct (day_is_miss_inv _ _ Hm) as (st & H1 & H2).
    simpl. rewrite H1. simpl. rewrite H2. f_equal. lia.
  - inversion Hpre as [|? ? Hd Hrest]; subst.
    destruct (day_is_miss_inv _ _ Hd) as (st & H1 & H2).
    simpl app. simpl SignIn.scan_logs. rewrite H1. simpl rbind. rewrite H2.
    rewrite (IH m post (i + 1) Hrest Hm). f_equal.
    simpl List.length. lia.
Qed.

Lemma getitem_int_nth (l : list pyval) (k : nat) (x : pyval) :
  nth_error l k = Some x -> getitem_int (PList l) (Z.of_nat k) = Ret x.
Proof.
  intros H.
  assert (Hk : (k < List.length l)%nat)
    by (apply nth_error_Some; rewrite H; discriminate).
  assert (E1 : (Z.of_nat k <? 0) = false) by (apply Z.ltb_ge; lia).
  assert (E2 : (Z.of_nat (List.length l) <=? Z.of_nat k) = false)
    by (apply Z.leb_gt; lia).
  unfold getitem_int. cbv zeta. rewrite E1. cbv iota. rewrite E1, E2.
  simpl. rewrite Nat2Z.id, H. reflexivity.
Qed.

Lemma nth_error_last (l : list pyval) (d : pyval) :
  l <> [] -> nth_error l (List.length l - 1) = Some (last l d).
Proof.
  induction l as [|x l IH]; intros Hne; [congruence|].
  destruct l as [|y l]; [reflexivity|].
  replace (List.length (x :: y :: l) - 1)%nat with (S (List.length (y :: l) - 1))
    by (simpl; lia).
  transitivity (nth_error (y :: l) (List.length (y :: l) - 1)); [reflexivity|].
  rewrite IH by discriminate. reflexivity.
Qed.

Lemma getitem_int_minus_one (l : list pyval) (d : pyval) :
  l <> [] -> getitem_int (PList l) (-1) = Ret (last l d).
Proof.
  intros Hne.
  assert (Hlen : (0 < List.length l)%nat) by (destruct l; [congruence | simpl; lia]).
  pose proof (getitem_int_nth l (List.length l - 1) (last l d)
                (nth_error_last l d Hne)) as G.
  unfold getitem_int in *. cbv zeta in *.
  change (-1 <? 0) with true. cbv iota.
  replace (-1 + Z.of_nat (List.length l))
    with (Z.of_nat (List.length l - 1)) by lia.
  assert (E1 : (Z.of_nat (List.length l - 1) <? 0) = false)
    by (apply Z.ltb_ge; lia).
  rewrite E1 in G. cbv iota in G. exact G.
Qed.

(** C3: when the first day with status [miss] is not the first day of the
    log, the current day is the day just before it, and the reward text is
    the no-reward text when that day's [isReward] is false and the
    received text with the reward's name and description otherwise. *)
Theorem C3_current_day_precedes_first_miss :
  forall (pre post : list pyval) (p m : pyval),
    Forall (fun d => day_is_miss d = Ret false) (pre ++ [p]) ->
    day_is_miss m = Ret true ->
    let logs := PList (pre ++ p :: m :: post) in
    SignIn.current_day_of logs = Ret p
    /\ nth_error (pre ++ p :: m :: post) (List.length pre) = Some p
    /\ SignIn.streak_reward logs = SignIn.reward_of p
    /\ (forall flag,
          getitem_str p "isReward" = Ret flag -> py_truthy flag = false ->
          SignIn.reward_of p = Ret "无奖励")
    /\ (forall flag r name description,
          getitem_str p "isReward" = Ret flag -> py_truthy flag = true ->
          getitem_str p "reward" = Ret r ->
          getitem_str r "name" = Ret name ->
          getitem_str r "description" = Ret description ->
          SignIn.reward_of p
          = Ret ("获得 " ++ py_str name ++ " " ++ py_str description)).
Proof.
  intros pre post p m Hpre Hm logs.
  assert (Hnth : nth_error (pre ++ p :: m :: post) (List.length pre) = Some p).
  { rewrite nth_error_app2 by lia. rewrite Nat.sub_diag. reflexivity. }
  assert (Hcur : SignIn.current_day_of logs = Ret p).
  { unfold SignIn.current_day_of, logs. simpl py_iter. simpl rbind.
    replace (pre ++ p :: m :: post)%list with ((pre ++ [p]) ++ m :: post)%list at 2
      by (rewrite <- app_assoc; reflexivity).
    rewrite (scan_logs_first_miss _ _ _ _ 0 Hpre Hm).
    rewrite length_app. simpl List.length.
    replace (0 + Z.of_nat (List.length pre + 1) - 1)
      with (Z.of_nat (List.length pre)) by lia.
    apply getitem_int_nth. exact Hnth. }
  split; [exact Hcur|]. split; [exact Hnth|]. split.
  - unfold SignIn.streak_reward. rewrite Hcur. reflexivity.
  - split.
    + intros flag Hf Ht. unfold SignIn.reward_of. rewrite Hf. simpl.
      rewrite Ht. reflexivity.
    + intros flag r name description Hf Ht Hr Hn Hd.
      unfold SignIn.reward_of. rewrite Hf. simpl. rewrite Ht. simpl.
      rewrite Hr. simpl. rewrite Hn. simpl. rewrite Hd. reflexivity.
Qed.

(** The log [signed, signed, missed, signed]: the current day is the day at
    index 1, whose reward flag is false. *)
Lemma C3_witness :
  SignIn.current_day_of (PList ex_log_smss) = Ret (ex_day "normal" false "B")
  /\ nth_error ex_log_smss 1 = Some (ex_day "normal" false "B")
  /\ SignIn.streak_reward (PList ex_log_smss) = Ret "无奖励".
Proof.
  destruct (C3_current_day_precedes_first_miss
              [ex_day "normal" true "A"] [ex_day "normal" true "D"]
              (ex_day "normal" false "B") (ex_day "miss" false "C"))
    as (H1 & H2 & H3 & H4 & _).
  - repeat constructor.
  - reflexivity.
  - split; [exact H1|]. split; [exact H2|].
    change (PList ex_log_smss)
      with (PList ([ex_day "normal" true "A"] ++ ex_day "normal" false "B"
                     :: ex_day "miss" false "C" :: [ex_day "normal" true "D"])).
    rewrite H3. apply (H4 (PBool false)); reflexivity.
Defined.

(** C10: when the first day of a non-empty log has status [miss], the
    current day is the last day of the log (index [-1]), and the reward text
    is the one of that last day. *)
Theorem C10_first_day_missed_selects_last :
  forall (m : pyval) (rest : list pyval),
    day_is_miss m = Ret true ->
    SignIn.current_day_of (PList (m :: rest)) = Ret (last (m :: rest) m)
    /\ SignIn.streak_reward (PList (m :: rest))
       = SignIn.reward_of (last (m :: rest) m).
Proof.
  intros m rest Hm.
  assert (Hcur : SignIn.current_day_of (PList (m :: rest))
                 = Ret (last (m :: rest) m)).
  { unfold SignIn.current_day_of, py_iter, rbind.
    change (m :: rest) with ([] ++ m :: rest)%list at 2.
    rewrite (scan_logs_first_miss _ [] m rest 0 (Forall_nil _) Hm).
    change (0 + Z.of_nat (List.length (@nil pyval)) - 1) with (-1).
    apply getitem_int_minus_one. discriminate. }
  split; [exact Hcur|].
  unfold SignIn.streak_reward. rewrite Hcur. reflexivity.
Qed.

Lemma C10_witness :
  SignIn.current_day_of
    (PList [ex_day "miss" false "A"; ex_day "miss" false "B";
            ex_day "miss" true "C"])
  = Ret (ex_day "miss" true "C")
  /\ SignIn.streak_reward
       (PList [ex_day "miss" false "A"; ex_day "miss" false "B";
               ex_day "miss" true "C"])
     = Ret "获得 C x1".
Proof.
  destruct (C10_first_day_missed_selects_last
              (ex_day "miss" false "A")
              [ex_day "miss" false "B"; ex_day "miss" true "C"])
    as (H1 & H2).
  - reflexivity.
  - split; [exact H1|]. rewrite H2. reflexivity.
Defined.

(** ** The session *)

Ltac unfold_M :=
  unfold post_json; unfold bind, lift, ret, requests_post, try_except, emit;
  cbv beta.

Lemma init_returns (cfg : pyval) (tok : string) :
  exists self,
    SignIn.__init__ cfg tok = Ret self
    /\ SignIn.refresh_token self = tok
    /\ SignIn.__hide_refresh_token tok = Ret (SignIn.hide_refresh_token self)
    /\ SignIn.access_token self = PNone
    /\ SignIn.new_refresh_token self = PNone
    /\ SignIn.phone self = PNone
    /\ SignIn.signin_count self = PInt 0
    /\ SignIn.signin_reward self = PNone
    /\ SignIn.error self = PNone.
Proof.
  eexists. split; [reflexivity|]. repeat split.
Qed.

Lemma get_access_token_ok (self : SignIn.t) (w : world) (d at_ nrt un : pyval) :
  answers w (SignIn.token_request (SignIn.refresh_token self)) d ->
  exchange_succeeds d at_ nrt un ->
  SignIn.__get_access_token self w
  = ([EvPost (SignIn.token_request (SignIn.refresh_token self))],
     Ret (SignIn.set_session self at_ nrt un, true)).
Proof.
  intros (resp & H1 & H2) (Hc & Ha & Hn & Hu).
  unfold SignIn.__get_access_token. unfold_M.
  rewrite H1, H2, Hc, Ha, Hn, Hu. reflexivity.
Qed.

Lemma get_access_token_invalid (self : SignIn.t) (w : world) (d : pyval) :
  answers w (SignIn.token_request (SignIn.refresh_token self)) d ->
  SignIn.code_is_invalid d = Ret true ->
  SignIn.__get_access_token self w
  = ([EvPost (SignIn.token_request (SignIn.refresh_token self))],
     Ret (SignIn.set_error self d, false)).
Proof.
  intros (resp & H1 & H2) Hc.
  unfold SignIn.__get_access_token. unfold_M.
  rewrite H1, H2, Hc. reflexivity.
Qed.

Lemma sign_in_rejected (self : SignIn.t) (w : world) (d : pyval) :
  answers w (SignIn.signin_request (SignIn.access_token self)) d ->
  py_contains_str "success" d = Ret false ->
  SignIn.__sign_in self w
  = ([EvPost (SignIn.signin_request (SignIn.access_token self))],
     Ret (SignIn.set_error self d)).
Proof.
  intros (resp & H1 & H2) Hs.
  unfold SignIn.__sign_in. unfold_M.
  rewrite H1, H2, Hs. reflexivity.
Qed.

Lemma sign_in_accepted (self : SignIn.t) (w : world)
    (d result logs cnt : pyval) (rw : string) :
  answers w (SignIn.signin_request (SignIn.access_token self)) d ->
  py_contains_str "success" d = Ret true ->
  getitem_str d "result" = Ret result ->
  getitem_str result "signInLogs" = Ret logs ->
  SignIn.streak_reward logs = Ret rw ->
  getitem_str result "signInCount" = Ret cnt ->
  SignIn.__sign_in self w
  = ([EvPost (SignIn.signin_request (SignIn.access_token self))],
     Ret (SignIn.set_signin self cnt (PStr rw))).
Proof.
  intros (resp & H1 & H2) Hs Hr Hl Hw Hc.
  unfold SignIn.__sign_in. unfold_M.
  rewrite H1, H2, Hs. simpl. rewrite Hr, Hl, Hw, Hc. reflexivity.
Qed.


Lemma run_result (self0 self : SignIn.t) (w : world) tr (r : SignIn.Result) :
  SignIn.run self0 w = (tr, Ret (self, r)) ->
  r = SignIn.__generate_result self.
Proof.
  unfold SignIn.run, bind, ret.
  destruct (SignIn.__get_access_token self0 w) as [t1 [[s1 b]|e]];
    [|discriminate].
  destruct b.
  - destruct (SignIn.__sign_in s1 w) as [t2 [s2|e]]; [|discriminate].
    intros H. injection H as _ H1 H2. subst. reflexivity.
  - intros H. injection H as _ H1 H2. subst. reflexivity.
Qed.

Lemma session_run (cfg : pyval) (tok : string) (w : world) :
  exists self0,
    SignIn.__init__ cfg tok = Ret self0
    /\ SignIn.session cfg tok w = SignIn.run self0 w.
Proof.
  eexists. split; [reflexivity|].
  unfold SignIn.session, bind, lift. simpl.
  destruct (SignIn.run _ w). reflexivity.
Qed.



(** C1 (fails on the code): with a successful exchange and a sign-in
    response whose month log has no day with status [miss], [run] returns no
    result: [TypeError] escapes from it after the two requests. *)
Theorem C1_all_signed_log_escapes :
  SignIn.session (ex_config (PStr "")) ex_token world_all_signed
  = ([EvPost (SignIn.token_request ex_token);
      EvPost (SignIn.signin_request (PStr "eyJhbGciOi"))],
     Raise TypeError).
Proof.
  reflexivity.
Qed.

(** C5 (as amended): when the exchange succeeds and the sign-in response
    has no [success], the result is a failure whose report carries the
    sign-in response, and its credential is the one the exchange returned
    when that one is not empty (truthy), and the credential the session was
    given otherwise. *)
Theorem C5_signin_rejected_keeps_rotated_credential :
  forall (cfg : pyval) (tok : string) (w : world) (d1 at_ nrt un d2 : pyval),
    answers w (SignIn.token_request tok) d1 ->
    exchange_succeeds d1 at_ nrt un ->
    answers w (SignIn.signin_request at_) d2 ->
    py_contains_str "success" d2 = Ret false ->
    exists self r,
      SignIn.session cfg tok w
      = ([EvPost (SignIn.token_request tok);
          EvPost (SignIn.signin_request at_)], Ret (self, r))
      /\ SignIn.success r = false
      /\ SignIn.error self = d2
      /\ SignIn.result_text r
         = "[" ++ py_str (SignIn.user r) ++ "] 签到失败" ++ nl ++ json_dumps d2
      /\ SignIn.text_html r
         = "<code>" ++ py_str (SignIn.user r) ++ "</code> 签到失败" ++ nl
           ++ "<code>" ++ json_dumps d2 ++ "</code>"
      /\ SignIn.result_refresh_token r
         = (if py_truthy nrt then nrt else PStr tok).
Proof.
  intros cfg tok w d1 at_ nrt un d2 A1 E A2 Hs.
  destruct (session_run cfg tok w) as (self0 & Hinit & Hrun).
  injection Hinit as Hinit. subst self0. rewrite Hrun. clear Hrun.
  match goal with |- context [SignIn.run ?s w] => set (self0 := s) end.
  pose proof (get_access_token_ok self0 w d1 at_ nrt un A1 E) as G.
  pose proof (sign_in_rejected (SignIn.set_session self0 at_ nrt un) w d2 A2 Hs) as S.
  exists (SignIn.set_error (SignIn.set_session self0 at_ nrt un) d2).
  eexists. split.
  - unfold SignIn.run, bind. rewrite G, S. reflexivity.
  - simpl. unfold py_or. repeat split.
Qed.

Lemma C5_witness :
  exists self r,
    SignIn.session (ex_config (PStr "")) ex_token world_signin_rejected
    = ([EvPost (SignIn.token_request ex_token);
        EvPost (SignIn.signin_request (PStr "eyJhbGciOi"))], Ret (self, r))
    /\ SignIn.success r = false
    /\ SignIn.error self = ex_signin_rejected
    /\ SignIn.result_text r
       = "[" ++ py_str (SignIn.user r) ++ "] 签到失败" ++ nl
         ++ json_dumps ex_signin_rejected
    /\ SignIn.text_html r
       = "<code>" ++ py_str (SignIn.user r) ++ "</code> 签到失败" ++ nl
         ++ "<code>" ++ json_dumps ex_signin_rejected ++ "</code>"
    /\ SignIn.result_refresh_token r = PStr "fedcba9876543210fedcba9876543210".
Proof.
  apply (C5_signin_rejected_keeps_rotated_credential
           (ex_config (PStr "")) ex_token world_signin_rejected ex_exchange
           (PStr "eyJhbGciOi") (PStr "fedcba9876543210fedcba9876543210")
           (PStr "138***000") ex_signin_rejected).
  - exists (ok_response ex_exchange). split; reflexivity.
  - repeat split.
  - exists (ok_response ex_signin_rejected). split; reflexivity.
  - reflexivity.
Defined.

(** C5 as stated fails: the exchange succeeds and answers with an empty
    [refresh_token], the sign-in response has no [success]; the credential
    of the failure result is the one the session was given, not the one the
    exchange returned. *)
Lemma C5_counterexample :
  exchange_succeeds ex_exchange_empty_rotation
    (PStr "eyJhbGciOi") (PStr "") (PStr "138***000")
  /\ py_contains_str "success" ex_signin_rejected = Ret false
  /\ match snd (SignIn.session (ex_config (PStr "")) ex_token
                  world_empty_rotation) with
     | Ret (_, r) =>
         SignIn.success r = false
         /\ SignIn.result_refresh_token r = PStr ex_token
         /\ SignIn.result_refresh_token r <> PStr ""
     | Raise _ => False
     end.
Proof.
  split; [repeat split|]. split; [reflexivity|].
  simpl. split; [reflexivity|]. split; [reflexivity | discriminate].
Qed.

(** C6: when the exchange answers with one of the invalid-credential codes,
    the session makes that one request and no sign-in request, and returns a
    failure whose report carries the error body and whose credential is the
    one it was given. *)
Theorem C6_invalid_credential_stops_session :
  forall (cfg : pyval) (tok : string) (w : world) (d c : pyval),
    answers w (SignIn.token_request tok) d ->
    getitem_str d "code" = Ret c ->
    existsb (py_eq_str c) SignIn.invalid_codes = true ->
    exists self r,
      SignIn.session cfg tok w
      = ([EvPost (SignIn.token_request tok)], Ret (self, r))
      /\ (forall at_,
            ~ In (EvPost (SignIn.signin_request at_))
                 (fst (SignIn.session cfg tok w)))
      /\ SignIn.success r = false
      /\ SignIn.error self = d
      /\ SignIn.__hide_refresh_token tok = Ret (SignIn.hide_refresh_token self)
      /\ SignIn.result_text r
         = "[" ++ SignIn.hide_refresh_token self ++ "] 签到失败" ++ nl
           ++ json_dumps d
      /\ SignIn.text_html r
         = "<code>" ++ SignIn.hide_refresh_token self ++ "</code> 签到失败" ++ nl
           ++ "<code>" ++ json_dumps d ++ "</code>"
      /\ SignIn.result_refresh_token r = PStr tok.
Proof.
  intros cfg tok w d c A Hc Hin.
  destruct (session_run cfg tok w) as (self0 & Hinit & Hrun).
  injection Hinit as Hinit. subst self0.
  match type of Hrun with _ = SignIn.run ?s w => set (self0 := s) in * end.
  assert (Hinv : SignIn.code_is_invalid d = Ret true).
  { unfold SignIn.code_is_invalid. rewrite Hc, Hin. reflexivity. }
  pose proof (get_access_token_invalid self0 w d A Hinv) as G.
  assert (R : SignIn.run self0 w
              = ([EvPost (SignIn.token_request tok)],
                 Ret (SignIn.set_error self0 d,
                      SignIn.__generate_result (SignIn.set_error self0 d)))).
  { unfold SignIn.run, bind. rewrite G. reflexivity. }
  exists (SignIn.set_error self0 d). eexists. split.
  - rewrite Hrun. exact R.
  - split.
    + intros at_ Hi. rewrite Hrun, R in Hi. simpl in Hi.
      destruct Hi as [Hi|[]]. discriminate Hi.
    + repeat split.
Qed.

Lemma C6_witness :
  exists self r,
    SignIn.session (ex_config (PStr "")) ex_token world_expired
    = ([EvPost (SignIn.token_request ex_token)], Ret (self, r))
    /\ SignIn.success r = false
    /\ SignIn.error self = ex_exchange_expired
    /\ SignIn.result_text r
       = "[0123************************cdef] 签到失败" ++ nl
         ++ json_dumps ex_exchange_expired
    /\ SignIn.result_refresh_token r = PStr ex_token.
Proof.
  destruct (C6_invalid_credential_stops_session
              (ex_config (PStr "")) ex_token world_expired
              ex_exchange_expired (PStr "RefreshTokenExpired"))
    as (self & r & H1 & _ & H3 & H4 & H5 & H6 & _ & H8).
  - exists (ok_response ex_exchange_expired). split; reflexivity.
  - reflexivity.
  - reflexivity.
  - exists self, r. split; [exact H1|]. split; [exact H3|].
    split; [exact H4|]. split; [|exact H8].
    rewrite H6. injection H5 as H5. rewrite <- H5. reflexivity.
Defined.

(** C9: the success flag of a result is the truth value of the stored
    signed-day count, so for an integer count it is true exactly when the
    count is not zero; and a session whose exchange and sign-in both succeed
    with [signInCount = 0] returns a failure with the failure report (whose
    diagnostic is [null], no error having been stored). *)
Theorem C9_success_iff_count_nonzero :
  forall (cfg : pyval) (tok : string) (w : world),
    (forall tr self r,
        SignIn.session cfg tok w = (tr, Ret (self, r)) ->
        SignIn.count r = SignIn.signin_count self
        /\ SignIn.success r = py_truthy (SignIn.signin_count self)
        /\ (forall n, SignIn.signin_count self = PInt n ->
                      (SignIn.success r = true <-> n <> 0)))
    /\ (forall d1 at_ nrt un d2 result logs rw,
          answers w (SignIn.token_request tok) d1 ->
          exchange_succeeds d1 at_ nrt un ->
          answers w (SignIn.signin_request at_) d2 ->
          py_contains_str "success" d2 = Ret true ->
          getitem_str d2 "result" = Ret result ->
          getitem_str result "signInLogs" = Ret logs ->
          SignIn.streak_reward logs = Ret rw ->
          getitem_str result "signInCount" = Ret (PInt 0) ->
          exists self r,
            SignIn.session cfg tok w
            = ([EvPost (SignIn.token_request tok);
                EvPost (SignIn.signin_request at_)], Ret (self, r))
            /\ SignIn.signin_count self = PInt 0
            /\ SignIn.success r = false
            /\ SignIn.result_text r
               = "[" ++ py_str (SignIn.user r) ++ "] 签到失败" ++ nl ++ "null"
            /\ SignIn.text_html r
               = "<code>" ++ py_str (SignIn.user r) ++ "</code> 签到失败" ++ nl
                 ++ "<code>null</code>").
Proof.
  intros cfg tok w.
  destruct (session_run cfg tok w) as (self0 & Hinit & Hrun).
  split.
  - intros tr self r H. rewrite Hrun in H.
    rewrite (run_result _ _ _ _ _ H). simpl.
    split; [reflexivity|]. split.
    + destruct (py_truthy (SignIn.signin_count self)); reflexivity.
    + intros n Hn. rewrite Hn. simpl.
      destruct (Z.eqb_spec n 0) as [E|E]; simpl; split; intros; congruence.
  - intros d1 at_ nrt un d2 result logs rw A1 E A2 Hs Hr Hl Hw Hc.
    injection Hinit as Hinit. subst self0. rewrite Hrun. clear Hrun.
    match goal with |- context [SignIn.run ?s w] => set (self0 := s) end.
    pose proof (get_access_token_ok self0 w d1 at_ nrt un A1 E) as G.
    pose proof (sign_in_accepted (SignIn.set_session self0 at_ nrt un) w
                  d2 result logs (PInt 0) rw A2 Hs Hr Hl Hw Hc) as S.
    eexists. eexists. split.
    + unfold SignIn.run, bind. rewrite G, S. reflexivity.
    + repeat split.
Qed.

Lemma C9_witness :
  (exists tr self r,
      SignIn.session (ex_config (PStr "")) ex_token world_signed
      = (tr, Ret (self, r))
      /\ SignIn.signin_count self = PInt 2
      /\ SignIn.success r = true)
  /\ (exists self r,
        SignIn.session (ex_config (PStr "")) ex_token world_zero_count
        = ([EvPost (SignIn.token_request ex_token);
            EvPost (SignIn.signin_request (PStr "eyJhbGciOi"))],
           Ret (self, r))
        /\ SignIn.success r = false
        /\ SignIn.result_text r = "[138***000] 签到失败" ++ nl ++ "null").
Proof.
  split.
  - destruct (C9_success_iff_count_nonzero
                (ex_config (PStr "")) ex_token world_signed) as (HA & _).
    assert (E : exists tr self r,
               SignIn.session (ex_config (PStr "")) ex_token world_signed
               = (tr, Ret (self, r))
               /\ SignIn.signin_count self = PInt 2)
      by (do 3 eexists; split; reflexivity).
    destruct E as (tr & self & r & E & Hc).
    exists tr, self, r. split; [exact E|]. split; [exact Hc|].
    destruct (HA tr self r E) as (_ & _ & Hiff).
    apply (Hiff 2 Hc). discriminate.
  - destruct (C9_success_iff_count_nonzero
                (ex_config (PStr "")) ex_token world_zero_count) as (_ & HB).
    destruct (HB ex_exchange (PStr "eyJhbGciOi")
                (PStr "fedcba9876543210fedcba9876543210") (PStr "138***000")
                (ex_signin 0 ex_log_smss)
                (PDict [("signInCount", PInt 0); ("signInLogs", PList ex_log_smss)])
                (PList ex_log_smss) "无奖励")
      as (self & r & H1 & _ & H3 & H4 & _).
    + exists (ok_response ex_exchange). split; reflexivity.
    + repeat split.
    + exists (ok_response (ex_signin 0 ex_log_smss)). split; reflexivity.
    + reflexivity.
    + reflexivity.
    + reflexivity.
    + reflexivity.
    + reflexivity.
    + exists self, r. split; [exact H1|]. split; [exact H3|].
      rewrite H4. pose proof (f_equal snd H1) as Hr. vm_compute in Hr.
      injection Hr as _ Hr. subst r. reflexivity.
Defined.

(** ** The channels *)

Lemma pushed_app (t1 t2 : list event) :
  pushed (t1 ++ t2) = (pushed t1 ++ pushed t2)%list.
Proof.
  induction t1 as [|[r|c] t1 IH]; simpl; [reflexivity | exact IH | now rewrite IH].
Qed.

Lemma quietM_ret {A} (a : A) : quietM (ret a).
Proof. intros w. reflexivity. Qed.

Lemma quietM_lift {A} (r : res A) : quietM (lift r).
Proof. intros w. reflexivity. Qed.

Lemma quietM_post (req : request) : quietM (requests_post req).
Proof. intros w. reflexivity. Qed.

Lemma quietM_bind {A B} (m : M A) (k : A -> M B) :
  quietM m -> (forall a, quietM (k a)) -> quietM (bind m k).
Proof.
  intros Hm Hk w. unfold bind. specialize (Hm w).
  destruct (m w) as [t1 [a|e]]; simpl in *; [|exact Hm].
  specialize (Hk a w). destruct (k a w) as [t2 r]; simpl in *.
  rewrite pushed_app, Hm, Hk. reflexivity.
Qed.

Lemma quietM_try {A} (m : M A) (h : exn -> M A) :
  quietM m -> (forall e, quietM (h e)) -> quietM (try_except m h).
Proof.
  intros Hm Hh w. unfold try_except. specialize (Hm w).
  destruct (m w) as [t1 [a|e]]; simpl in *; [exact Hm|].
  specialize (Hh e w). destruct (h e w) as [t2 r]; simpl in *.
  rewrite pushed_app, Hm, Hh. reflexivity.
Qed.

Ltac quiet_steps :=
  repeat first
    [ apply quietM_ret
    | apply quietM_lift
    | apply quietM_post
    | apply quietM_bind; [|intros ?]
    | apply quietM_try; [|intros ?]
    | match goal with
      | |- quietM (if ?b then _ else _) => destruct b
      end ].

Lemma telegram_quiet : quiet telegram.push.
Proof.
  intros config content content_html title.
  unfold telegram.push, telegram.Pusher_send. quiet_steps.
Qed.

Lemma pushplus_quiet : quiet pushplus.push.
Proof.
  intros config content content_html title.
  unfold pushplus.push, pushplus.Pusher_send, post_json. quiet_steps.
Qed.

Lemma absent_quiet (name : string) : quiet (absent_module name).
Proof.
  intros config content content_html title w. reflexivity.
Qed.

Lemma pushers_quiet : Forall (fun np => quiet (snd np)) pushers.
Proof.
  unfold pushers.
  repeat constructor; simpl;
    auto using telegram_quiet, pushplus_quiet, absent_quiet.
Qed.

(** A transport error raised by [requests.post] makes the Telegram channel
    return [False]. *)
Lemma telegram_push_transport_error
    (config token chat_id proxy content content_html title : pyval)
    (endpoint : string) (w : world) (e : exn) :
  telegram_configured config (PStr endpoint) token chat_id proxy ->
  http_post w (telegram_request endpoint token chat_id proxy title content_html)
  = Raise e ->
  telegram.push config content content_html title w
  = ([EvPost (telegram_request endpoint token chat_id proxy title content_html)],
     Ret (PBool false)).
Proof.
  intros (H1 & T1 & H2 & T2 & H3 & T3 & H4) He.
  unfold telegram.push, telegram.Pusher_send. unfold_M.
  rewrite H1, T1. cbn [negb]. cbv beta iota.
  rewrite H2, T2. cbn [negb]. cbv beta iota.
  rewrite H3, T3. cbn [negb]. cbv beta iota.
  rewrite H4. unfold telegram_request in He. rewrite He. reflexivity.
Qed.

(** An HTTP answer whose status is not 200 is seen by [send], which returns
    [None]; [push] still returns [True]. *)
Lemma telegram_push_http_failure
    (config token chat_id proxy content content_html title : pyval)
    (endpoint : string) (w : world) (resp : response) :
  telegram_configured config (PStr endpoint) token chat_id proxy ->
  http_post w (telegram_request endpoint token chat_id proxy title content_html)
  = Ret resp ->
  status_code resp <> 200 ->
  telegram.push config content content_html title w
  = ([EvPost (telegram_request endpoint token chat_id proxy title content_html)],
     Ret (PBool true)).
Proof.
  intros (H1 & T1 & H2 & T2 & H3 & T3 & H4) Hr Hs.
  unfold telegram.push, telegram.Pusher_send. unfold_M.
  rewrite H1, T1. cbn [negb]. cbv beta iota.
  rewrite H2, T2. cbn [negb]. cbv beta iota.
  rewrite H3, T3. cbn [negb]. cbv beta iota.
  rewrite H4. unfold telegram_request in Hr. rewrite Hr.
  destruct (Z.eqb_spec (status_code resp) 200) as [E|E]; [contradiction|].
  reflexivity.
Qed.

(** X13: A transport error makes the PushPlus channel return [False]; any
    answer with a JSON body, whatever its status, makes it return [True]. *)
Lemma pushplus_push_outcome
    (config token content content_html title : pyval) (w : world) :
  getitem_str config "pushplus_token" = Ret token ->
  py_truthy token = true ->
  pushplus.push config content content_html title w
  = ([EvPost (pushplus_request token title content)],
     Ret (PBool (match http_post w (pushplus_request token title content) with
                 | Ret resp => match json_body resp with
                               | Ret _ => true
                               | Raise _ => false
                               end
                 | Raise _ => false
                 end))).
Proof.
  intros H T.
  unfold pushplus.push, pushplus.Pusher_send. unfold_M.
  rewrite H, T. cbn [negb]. cbv beta iota.
  unfold pushplus_request.
  match goal with
  | |- context [http_post w ?r] => destruct (http_post w r) as [resp|e]
  end; [|reflexivity].
  destruct (json_body resp); reflexivity.
Qed.

(** C7 (fails on the code for a non-success HTTP answer): the Telegram
    channel, fully configured, is answered with HTTP 403; [send] takes the
    failure branch and returns [None], yet the outcome of [push] is [True]. *)
Theorem C7_http_failure_reported_as_success :
  telegram.push (ex_config (PStr "telegram")) (PStr "text") (PStr "html")
    (PStr "阿里云盘签到") world_channels_403
  = ([EvPost (telegram_request "https://api.telegram.org" (PStr "123:abc")
                (PStr "42") (PStr "") (PStr "阿里云盘签到") (PStr "html"))],
     Ret (PBool true))
  /\ (exists resp,
        http_post world_channels_403
          (telegram_request "https://api.telegram.org" (PStr "123:abc")
             (PStr "42") (PStr "") (PStr "阿里云盘签到") (PStr "html"))
        = Ret resp
        /\ status_code resp = 403).
Proof.
  split; [reflexivity|].
  eexists. split; reflexivity.
Qed.

(** ** The fan-out *)

Lemma push_loop_pushed (configured : list string)
    (config content content_html title : pyval) (w : world) :
  forall (items : list (string * pusher)) (tr : list event),
    Forall (fun np => quiet (snd np)) items ->
    push_loop configured items config content content_html title w
    = (tr, Ret tt) ->
    pushed tr = filter (fun n => str_in n configured) (map fst items).
Proof.
  induction items as [|[n p] items IH]; intros tr Hq H.
  - simpl in H. unfold ret in H. injection H as H. subst. reflexivity.
  - inversion Hq as [|? ? Hp Hrest]; subst. simpl in Hp.
    simpl push_loop in H. simpl map. simpl filter.
    unfold bind in H.
    destruct (str_in n configured) eqn:En.
    + unfold emit in H. cbv beta iota in H.
      pose proof (Hp config content content_html title w) as Hpw.
      destruct (p config content content_html title w) as [tp [v|e]];
        simpl in Hpw; [|discriminate].
      unfold ret in H. cbv beta iota in H.
      destruct (push_loop configured items config content content_html title w)
        as [t2 [u|e]] eqn:E2; [|discriminate].
      injection H as H. subst tr. destruct u.
      simpl pushed. rewrite !pushed_app, Hpw. simpl.
      f_equal. apply IH; [exact Hrest | reflexivity].
    + unfold ret in H. cbv beta iota in H.
      destruct (push_loop configured items config content content_html title w)
        as [t2 [u|e]] eqn:E2; [|discriminate].
      injection H as H. subst tr. destruct u. simpl.
      apply IH; [exact Hrest | reflexivity].
Qed.


Lemma push_of_loop (config content content_html title : pyval) (w : world)
    (configured : list string) :
  configured_push_types config = Ret configured ->
  push config content content_html title w
  = match push_loop configured pushers config content content_html title w with
    | (tr, Ret _) => (tr, Ret PNone)
    | (tr, Raise e) => (tr, Raise e)
    end.
Proof.
  intros H. unfold push, bind, lift, ret. rewrite H. cbv beta iota.
  destruct (push_loop configured pushers config content content_html title w)
    as [tr [u|e]]; [|reflexivity].
  simpl. rewrite app_nil_r. reflexivity.
Qed.

Lemma push_pushed (config content content_html title : pyval) (w : world)
    (configured : list string) (tr : list event) (v : pyval) :
  configured_push_types config = Ret configured ->
  push config content content_html title w = (tr, Ret v) ->
  v = PNone
  /\ pushed tr = filter (fun n => str_in n configured) known_channels.
Proof.
  intros Hc H. rewrite (push_of_loop _ _ _ _ _ _ Hc) in H.
  destruct (push_loop configured pushers config content content_html title w)
    as [t [u|e]] eqn:E; [|discriminate].
  injection H as H1 H2. subst. destruct u. split; [reflexivity|].
  apply (push_loop_pushed _ _ _ _ _ _ _ _ pushers_quiet E).
Qed.


Lemma known_channels_NoDup : NoDup known_channels.
Proof.
  unfold known_channels, pushers. simpl.
  repeat constructor; simpl; intuition discriminate.
Qed.











(** * Further properties of the code *)

Ltac destruct_scrutinee :=
  match goal with
  | |- context [match ?x with _ => _ end] =>
      lazymatch x with
      | context [match _ with _ => _ end] => fail
      | _ => destruct x eqn:?
      end
  end.

(** ** Masking, once more *)

Lemma string_app_assoc (x y z : string) : (x ++ y) ++ z = x ++ y ++ z.
Proof.
  induction x as [|c x IH]; simpl; [reflexivity | now rewrite IH].
Qed.

Lemma string_app_nil_r (x : string) : x ++ "" = x.
Proof.
  induction x as [|c x IH]; simpl; [reflexivity | now rewrite IH].
Qed.

(** X1: A credential of 8 characters or more is shown with its length kept:
    its first 4 and last 4 characters, and one star for each character
    between them. *)
Theorem mask_long_credential (s : string) :
  (8 <= String.length s)%nat ->
  exists shown,
    SignIn.__hide_refresh_token s = Ret shown
    /\ shown = substring 0 4 s ++ stars (String.length s - 8)
               ++ substring (String.length s - 4) 4 s
    /\ String.length shown = String.length s
    /\ substring 0 4 shown = substring 0 4 s
    /\ substring 4 (String.length s - 8) shown = stars (String.length s - 8)
    /\ substring (String.length s - 4) 4 shown
       = substring (String.length s - 4) 4 s.
Proof.
  intros H. destruct (hide_refresh_token_long s H) as (E & _).
  eexists. split; [exact E|]. split; [reflexivity|].
  set (a := substring 0 4 s). set (m := stars (String.length s - 8)).
  set (z := substring (String.length s - 4) 4 s).
  assert (La : String.length a = 4%nat) by (apply length_substring; lia).
  assert (Lm : String.length m = (String.length s - 8)%nat) by apply length_stars.
  assert (Lz : String.length z = 4%nat) by (apply length_substring; lia).
  assert (P : forall x y : string,
             substring 0 (String.length x) (x ++ y) = x).
  { intros x y. apply prefix_correct.
    induction x as [|c x IH]; simpl; [destruct y; reflexivity|].
    destruct (ascii_dec c c) as [_|C]; [exact IH | congruence]. }
  assert (Q : forall (x y : string) (k : nat),
             substring (String.length x) k (x ++ y) = substring 0 k y).
  { intros x y k. induction x as [|c x IH]; simpl; [reflexivity | exact IH]. }
  split; [rewrite !length_append; lia|]. split.
  - rewrite <- La at 1. apply P.
  - split.
    + rewrite <- La at 1. rewrite Q. rewrite <- Lm at 1. apply P.
    + replace (String.length s - 4)%nat with (String.length (a ++ m))
        by (rewrite length_append; lia).
      rewrite <- string_app_assoc.
      rewrite Q. rewrite <- Lz at 1.
      rewrite <- (string_app_nil_r z) at 2. apply P.
Qed.

Lemma mask_long_credential_witness :
  SignIn.__hide_refresh_token ex_token
  = Ret "0123************************cdef".
Proof.
  destruct (mask_long_credential ex_token) as (shown & E & S & _).
  - simpl. lia.
  - rewrite E, S. reflexivity.
Defined.

Lemma hide_refresh_token_short_witness :
  exists shown,
    SignIn.__hide_refresh_token "abcde" = Ret shown
    /\ String.length shown = 8%nat
    /\ shown <> "abcde".
Proof.
  apply (hide_refresh_token_short "abcde"). simpl. lia.
Defined.

(** ** The session, beyond the claims *)

(** X3: A successful run: the exchange succeeds, the sign-in response has
    [success] (whatever its value) and a count that is not zero, and the
    streak extraction on its month log returns a reward text (which needs a
    day with status [miss] in the log).  The result
    is a success, with the count and the reward of the response, the success
    report in both forms, the user name of the exchange (the masked
    credential when that is empty) and the exchange's credential (the input
    one when that is empty). *)
Theorem session_success_report :
  forall (cfg : pyval) (tok : string) (w : world)
         (d1 at_ nrt un d2 result logs cnt : pyval) (rw : string),
    answers w (SignIn.token_request tok) d1 ->
    exchange_succeeds d1 at_ nrt un ->
    answers w (SignIn.signin_request at_) d2 ->
    py_contains_str "success" d2 = Ret true ->
    getitem_str d2 "result" = Ret result ->
    getitem_str result "signInLogs" = Ret logs ->
    SignIn.streak_reward logs = Ret rw ->
    getitem_str result "signInCount" = Ret cnt ->
    py_truthy cnt = true ->
    exists self r,
      SignIn.session cfg tok w
      = ([EvPost (SignIn.token_request tok);
          EvPost (SignIn.signin_request at_)], Ret (self, r))
      /\ SignIn.success r = true
      /\ SignIn.count r = cnt
      /\ SignIn.reward r = PStr rw
      /\ SignIn.__hide_refresh_token tok = Ret (SignIn.hide_refresh_token self)
      /\ SignIn.user r = py_or un (PStr (SignIn.hide_refresh_token self))
      /\ SignIn.result_refresh_token r = py_or nrt (PStr tok)
      /\ SignIn.result_text r
         = "[" ++ py_str (SignIn.user r) ++ "] 签到成功, 本月累计签到 "
           ++ py_str cnt ++ " 天." ++ nl ++ "本次签到" ++ rw
      /\ SignIn.text_html r
         = "<code>" ++ py_str (SignIn.user r) ++ "</code> 签到成功, 本月累计签到 "
           ++ py_str cnt ++ " 天." ++ nl ++ "本次签到" ++ rw.
Proof.
  intros cfg tok w d1 at_ nrt un d2 result logs cnt rw A1 E A2 Hs Hr Hl Hw Hc Ht.
  destruct (session_run cfg tok w) as (self0 & Hinit & Hrun).
  injection Hinit as Hinit. subst self0. rewrite Hrun. clear Hrun.
  match goal with |- context [SignIn.run ?s w] => set (self0 := s) end.
  pose proof (get_access_token_ok self0 w d1 at_ nrt un A1 E) as G.
  pose proof (sign_in_accepted (SignIn.set_session self0 at_ nrt un) w
                d2 result logs cnt rw A2 Hs Hr Hl Hw Hc) as S.
  eexists. eexists. split.
  - unfold SignIn.run, bind. rewrite G, S. reflexivity.
  - simpl. rewrite Ht. repeat split.
Qed.

Lemma session_success_report_witness :
  exists self r,
    SignIn.session (ex_config (PStr "")) ex_token world_signed
    = ([EvPost (SignIn.token_request ex_token);
        EvPost (SignIn.signin_request (PStr "eyJhbGciOi"))], Ret (self, r))
    /\ SignIn.success r = true
    /\ SignIn.result_refresh_token r = PStr "fedcba9876543210fedcba9876543210"
    /\ SignIn.result_text r
       = "[138***000] 签到成功, 本月累计签到 2 天." ++ nl ++ "本次签到无奖励".
Proof.
  destruct (session_success_report
              (ex_config (PStr "")) ex_token world_signed ex_exchange
              (PStr "eyJhbGciOi") (PStr "fedcba9876543210fedcba9876543210")
              (PStr "138***000") (ex_signin 2 ex_log_smss)
              (PDict [("signInCount", PInt 2); ("signInLogs", PList ex_log_smss)])
              (PList ex_log_smss) (PInt 2) "无奖励")
    as (self & r & H1 & H2 & _ & _ & _ & H6 & H7 & H8 & _).
  - exists (ok_response ex_exchange). split; reflexivity.
  - repeat split.
  - exists (ok_response (ex_signin 2 ex_log_smss)). split; reflexivity.
  - reflexivity.
  - reflexivity.
  - reflexivity.
  - reflexivity.
  - reflexivity.
  - reflexivity.
  - exists self, r. split; [exact H1|]. split; [exact H2|].
    split; [exact H7|]. rewrite H8, H6. reflexivity.
Defined.



(** X5: An exchange answer that carries no invalid-credential code and lacks one
    of the three fields (any other error body, for one): the [KeyError] of
    the missing field escapes from [run] after the one request. *)
Theorem session_exchange_missing_field_raises :
  forall (cfg : pyval) (tok : string) (w : world) (d1 : pyval) (e : exn),
    answers w (SignIn.token_request tok) d1 ->
    SignIn.code_is_invalid d1 = Ret false ->
    (getitem_str d1 "access_token" = Raise e
     \/ (exists a, getitem_str d1 "access_token" = Ret a)
        /\ getitem_str d1 "refresh_token" = Raise e
     \/ (exists a, getitem_str d1 "access_token" = Ret a)
        /\ (exists n, getitem_str d1 "refresh_token" = Ret n)
        /\ getitem_str d1 "user_name" = Raise e) ->
    SignIn.session cfg tok w = ([EvPost (SignIn.token_request tok)], Raise e).
Proof.
  intros cfg tok w d1 e (resp & H1 & H2) Hc Hm.
  destruct (session_run cfg tok w) as (self0 & Hinit & Hrun).
  injection Hinit as Hinit. subst self0. rewrite Hrun. clear Hrun.
  unfold SignIn.run, SignIn.__get_access_token. unfold_M.
  simpl SignIn.refresh_token. rewrite H1, H2, Hc.
  destruct Hm as [Ha | [((a & Ha) & Hn) | ((a & Ha) & (n & Hn) & Hu)]].
  - rewrite Ha. reflexivity.
  - rewrite Ha, Hn. reflexivity.
  - rewrite Ha, Hn, Hu. reflexivity.
Qed.

Lemma session_exchange_missing_field_raises_witness :
  SignIn.session (ex_config (PStr "")) ex_token
    (mk_world (Ret (ok_response (PDict [("code", PStr "TooManyRequests")])))
              (Raise RequestException) (Raise RequestException))
  = ([EvPost (SignIn.token_request ex_token)],
     Raise (KeyError (PStr "access_token"))).
Proof.
  apply (session_exchange_missing_field_raises
           (ex_config (PStr "")) ex_token _
           (PDict [("code", PStr "TooManyRequests")])).
  - eexists. split; reflexivity.
  - reflexivity.
  - left. reflexivity.
Defined.

Lemma get_access_token_inv (self s1 : SignIn.t) (w : world) t (b : bool) :
  SignIn.__get_access_token self w = (t, Ret (s1, b)) ->
  t = [EvPost (SignIn.token_request (SignIn.refresh_token self))]
  /\ exists d,
       answers w (SignIn.token_request (SignIn.refresh_token self)) d
       /\ ((b = false /\ SignIn.code_is_invalid d = Ret true
            /\ s1 = SignIn.set_error self d)
           \/ (b = true
               /\ exists at_ nrt un,
                    exchange_succeeds d at_ nrt un
                    /\ s1 = SignIn.set_session self at_ nrt un)).
Proof.
  unfold SignIn.__get_access_token. unfold_M.
  destruct (http_post w (SignIn.token_request (SignIn.refresh_token self)))
    as [resp|e] eqn:H1; [|discriminate].
  destruct (json_body resp) as [d|e] eqn:H2; [|discriminate].
  destruct (SignIn.code_is_invalid d) as [[|]|e] eqn:Hc; [| |discriminate].
  - intros H. injection H as Ht Hs Hb. subst. split; [reflexivity|].
    exists d. split; [exists resp; split; assumption|].
    left. repeat split. exact Hc.
  - destruct (getitem_str d "access_token") as [a|e] eqn:Ha; [|discriminate].
    destruct (getitem_str d "refresh_token") as [n|e] eqn:Hn; [|discriminate].
    destruct (getitem_str d "user_name") as [u|e] eqn:Hu; [|discriminate].
    intros H. injection H as Ht Hs Hb. subst. split; [reflexivity|].
    exists d. split; [exists resp; split; assumption|].
    right. split; [reflexivity|]. exists a, n, u. repeat split; assumption.
Qed.

Lemma get_access_token_trace (self : SignIn.t) (w : world) :
  fst (SignIn.__get_access_token self w)
  = [EvPost (SignIn.token_request (SignIn.refresh_token self))].
Proof.
  unfold SignIn.__get_access_token. unfold_M.
  repeat (destruct_scrutinee; cbv beta iota); reflexivity.
Qed.

Lemma sign_in_trace (self : SignIn.t) (w : world) :
  fst (SignIn.__sign_in self w)
  = [EvPost (SignIn.signin_request (SignIn.access_token self))].
Proof.
  unfold SignIn.__sign_in. unfold_M.
  repeat (destruct_scrutinee; cbv beta iota); reflexivity.
Qed.

Lemma sign_in_inv (self s2 : SignIn.t) (w : world) t :
  SignIn.__sign_in self w = (t, Ret s2) ->
  (exists d, s2 = SignIn.set_error self d)
  \/ (exists cnt rw, s2 = SignIn.set_signin self cnt (PStr rw)).
Proof.
  unfold SignIn.__sign_in. unfold_M.
  repeat (destruct_scrutinee; cbv beta iota); try discriminate;
    intros H; injection H as _ H; subst; eauto.
Qed.

(** X6: The requests of a session, in every world: the token request with the
    credential it was given, and after it at most one sign-in request, which
    is made only when the exchange succeeded and carries the access token of
    the exchange. *)
Theorem session_requests :
  forall (cfg : pyval) (tok : string) (w : world),
    fst (SignIn.session cfg tok w) = [EvPost (SignIn.token_request tok)]
    \/ exists d1 at_ nrt un,
         answers w (SignIn.token_request tok) d1
         /\ exchange_succeeds d1 at_ nrt un
         /\ fst (SignIn.session cfg tok w)
            = [EvPost (SignIn.token_request tok);
               EvPost (SignIn.signin_request at_)].
Proof.
  intros cfg tok w.
  destruct (session_run cfg tok w) as (self0 & Hinit & Hrun).
  injection Hinit as Hinit. rewrite Hrun. clear Hrun.
  assert (Htok : SignIn.refresh_token self0 = tok) by (subst; reflexivity).
  clear Hinit. unfold SignIn.run, bind.
  pose proof (get_access_token_trace self0 w) as T.
  destruct (SignIn.__get_access_token self0 w) as [t1 [[s1 b]|e]] eqn:G;
    simpl in T; subst t1; rewrite Htok in *.
  - destruct (get_access_token_inv _ _ _ _ _ G)
      as (_ & d & A & [(Hb & _ & _) | (Hb & at_ & nrt & un & E & Hs)]);
      subst b.
    + left. reflexivity.
    + right. exists d, at_, nrt, un. rewrite Htok in A.
      split; [exact A|]. split; [exact E|].
      pose proof (sign_in_trace s1 w) as T2. subst s1. simpl in T2.
      destruct (SignIn.__sign_in _ w) as [t2 [s2|e]]; simpl in T2; subst t2;
        reflexivity.
  - left. reflexivity.
Qed.

Lemma session_inv (cfg : pyval) (tok : string) (w : world) tr
    (self : SignIn.t) (r : SignIn.Result) :
  SignIn.session cfg tok w = (tr, Ret (self, r)) ->
  r = SignIn.__generate_result self
  /\ SignIn.refresh_token self = tok
  /\ SignIn.__hide_refresh_token tok = Ret (SignIn.hide_refresh_token self)
  /\ (SignIn.new_refresh_token self = PNone
      \/ exists d1 at_ nrt un,
           answers w (SignIn.token_request tok) d1
           /\ exchange_succeeds d1 at_ nrt un
           /\ SignIn.new_refresh_token self = nrt
           /\ SignIn.phone self = un).
Proof.
  destruct (session_run cfg tok w) as (self0 & Hinit & Hrun).
  injection Hinit as Hinit. rewrite Hrun. clear Hrun. intros H.
  split; [exact (run_result _ _ _ _ _ H)|].
  assert (Htok : SignIn.refresh_token self0 = tok) by (subst; reflexivity).
  assert (Hh : SignIn.__hide_refresh_token tok
               = Ret (SignIn.hide_refresh_token self0)) by (subst; reflexivity).
  assert (Hn : SignIn.new_refresh_token self0 = PNone) by (subst; reflexivity).
  clear Hinit. unfold SignIn.run, bind in H.
  destruct (SignIn.__get_access_token self0 w) as [t1 [[s1 b]|e]] eqn:G;
    [|discriminate].
  destruct (get_access_token_inv _ _ _ _ _ G)
    as (_ & d & A & [(Hb & _ & Hs) | (Hb & at_ & nrt & un & E & Hs)]);
    subst b; rewrite Htok in A.
  - unfold ret in H. injection H as _ H _. subst self s1. simpl.
    split; [exact Htok|]. split; [exact Hh|]. left. exact Hn.
  - destruct (SignIn.__sign_in s1 w) as [t2 [s2|e]] eqn:S; [|discriminate].
    unfold ret in H. injection H as _ H _. subst self.
    assert (R : SignIn.refresh_token s2 = tok
                /\ SignIn.hide_refresh_token s2 = SignIn.hide_refresh_token self0
                /\ SignIn.new_refresh_token s2 = nrt
                /\ SignIn.phone s2 = un).
    { destruct (sign_in_inv _ _ _ _ S) as [(x & Hx) | (c & rw & Hx)];
        subst s2 s1; simpl; auto. }
    destruct R as (R1 & R2 & R3 & R4).
    split; [exact R1|]. split; [rewrite R2; exact Hh|].
    right. exists d, at_, nrt, un. auto.
Qed.

(** X7: The credential of a result is never lost: it is the credential the
    session was given, or the [refresh_token] the exchange answered with;
    and it is not empty when the given credential is not. *)
Theorem result_credential_is_input_or_rotated :
  forall (cfg : pyval) (tok : string) (w : world) tr
         (self : SignIn.t) (r : SignIn.Result),
    SignIn.session cfg tok w = (tr, Ret (self, r)) ->
    (SignIn.result_refresh_token r = PStr tok
     \/ exists d1,
          answers w (SignIn.token_request tok) d1
          /\ getitem_str d1 "refresh_token"
             = Ret (SignIn.result_refresh_token r))
    /\ (tok <> "" -> py_truthy (SignIn.result_refresh_token r) = true).
Proof.
  intros cfg tok w tr self r H.
  destruct (session_inv _ _ _ _ _ _ H) as (Hr & Htok & _ & Hn).
  subst r. simpl. rewrite Htok.
  assert (T : tok <> "" -> py_truthy (PStr tok) = true).
  { intros Hne. simpl. destruct (String.eqb_spec tok ""); [contradiction|reflexivity]. }
  unfold py_or.
  destruct (py_truthy (SignIn.new_refresh_token self)) eqn:Ht.
  - split; [|intros _; exact Ht].
    destruct Hn as [Hn | (d1 & at_ & nrt & un & A & (_ & _ & E & _) & Hn & _)].
    + rewrite Hn in Ht. discriminate.
    + right. exists d1. split; [exact A|]. rewrite Hn. exact E.
  - split; [left; reflexivity | exact T].
Qed.

Lemma result_credential_is_input_or_rotated_witness :
  exists tr self r,
    SignIn.session (ex_config (PStr "")) ex_token world_expired
    = (tr, Ret (self, r))
    /\ py_truthy (SignIn.result_refresh_token r) = true.
Proof.
  assert (E : exists tr self r,
             SignIn.session (ex_config (PStr "")) ex_token world_expired
             = (tr, Ret (self, r)))
    by (do 3 eexists; reflexivity).
  destruct E as (tr & self & r & E).
  exists tr, self, r. split; [exact E|].
  apply (result_credential_is_input_or_rotated _ _ _ _ _ _ E). discriminate.
Defined.

(** X8: A transport error of either request escapes from [run]: of the token
    request after that one request, of the sign-in request after the two. *)
Theorem session_transport_error_escapes :
  forall (cfg : pyval) (tok : string) (w : world) (e : exn),
    (http_post w (SignIn.token_request tok) = Raise e ->
     SignIn.session cfg tok w = ([EvPost (SignIn.token_request tok)], Raise e))
    /\ (forall d1 at_ nrt un,
          answers w (SignIn.token_request tok) d1 ->
          exchange_succeeds d1 at_ nrt un ->
          http_post w (SignIn.signin_request at_) = Raise e ->
          SignIn.session cfg tok w
          = ([EvPost (SignIn.token_request tok);
              EvPost (SignIn.signin_request at_)], Raise e)).
Proof.
  intros cfg tok w e.
  destruct (session_run cfg tok w) as (self0 & Hinit & Hrun).
  injection Hinit as Hinit. subst self0. rewrite Hrun. clear Hrun.
  match goal with |- context [SignIn.run ?s w] => set (self0 := s) end.
  split.
  - intros H. unfold SignIn.run, SignIn.__get_access_token. unfold_M.
    simpl SignIn.refresh_token. rewrite H. reflexivity.
  - intros d1 at_ nrt un A E H.
    pose proof (get_access_token_ok self0 w d1 at_ nrt un A E) as G.
    unfold SignIn.run, bind. rewrite G.
    unfold SignIn.__sign_in. unfold_M. simpl SignIn.access_token.
    rewrite H. reflexivity.
Qed.

Lemma session_transport_error_escapes_witness :
  SignIn.session (ex_config (PStr "")) ex_token
    (mk_world (Raise RequestException) (Raise RequestException)
              (Raise RequestException))
  = ([EvPost (SignIn.token_request ex_token)], Raise RequestException)
  /\ SignIn.session (ex_config (PStr "")) ex_token
       (mk_world (Ret (ok_response ex_exchange)) (Raise RequestException)
                 (Raise RequestException))
     = ([EvPost (SignIn.token_request ex_token);
         EvPost (SignIn.signin_request (PStr "eyJhbGciOi"))],
        Raise RequestException).
Proof.
  split.
  - apply (session_transport_error_escapes (ex_config (PStr "")) ex_token).
    reflexivity.
  - apply (proj2 (session_transport_error_escapes (ex_config (PStr ""))
                    ex_token _ RequestException)
             ex_exchange (PStr "eyJhbGciOi")
             (PStr "fedcba9876543210fedcba9876543210") (PStr "138***000")).
    + eexists. split; reflexivity.
    + repeat split.
    + reflexivity.
Defined.

(** ** The two channels, beyond the claims *)

(** X9: Telegram: when one of the three settings is empty (the ones before it
    being there and not empty), [push] returns [False] and sends nothing. *)
Theorem telegram_incomplete_settings_sends_nothing :
  forall (config content content_html title : pyval) (w : world),
    ((exists e, getitem_str config "telegram_endpoint" = Ret e
                /\ py_truthy e = false)
     \/ (exists e t, getitem_str config "telegram_endpoint" = Ret e
                     /\ py_truthy e = true
                     /\ getitem_str config "telegram_bot_token" = Ret t
                     /\ py_truthy t = false)
     \/ (exists e t c, getitem_str config "telegram_endpoint" = Ret e
                       /\ py_truthy e = true
                       /\ getitem_str config "telegram_bot_token" = Ret t
                       /\ py_truthy t = true
                       /\ getitem_str config "telegram_chat_id" = Ret c
                       /\ py_truthy c = false)) ->
    telegram.push config content content_html title w = ([], Ret (PBool false)).
Proof.
  intros config content content_html title w H.
  unfold telegram.push. unfold_M.
  destruct H as [(e & H1 & T1)
                | [(e & t & H1 & T1 & H2 & T2)
                  | (e & t & c & H1 & T1 & H2 & T2 & H3 & T3)]].
  - rewrite H1, T1. reflexivity.
  - rewrite H1, T1. cbn [negb]. cbv beta iota. rewrite H2, T2. reflexivity.
  - rewrite H1, T1. cbn [negb]. cbv beta iota. rewrite H2, T2.
    cbn [negb]. cbv beta iota. rewrite H3, T3. reflexivity.
Qed.

Lemma telegram_incomplete_settings_sends_nothing_witness :
  telegram.push
    (PDict [("telegram_endpoint", PStr "https://api.telegram.org");
            ("telegram_bot_token", PStr "");
            ("telegram_chat_id", PStr "42")])
    (PStr "text") (PStr "html") (PStr "title") world_signed
  = ([], Ret (PBool false)).
Proof.
  apply telegram_incomplete_settings_sends_nothing.
  right. left. exists (PStr "https://api.telegram.org"), (PStr "").
  repeat split.
Defined.

(** X10: Telegram: a configuration that lacks one of the three settings keys
    (the ones before it being there and not empty) makes [push] raise the
    [KeyError], the lookup being outside the [try]; nothing is sent. *)
Theorem telegram_missing_setting_raises :
  forall (config content content_html title : pyval) (w : world) (x : exn),
    (getitem_str config "telegram_endpoint" = Raise x
     \/ (exists e, getitem_str config "telegram_endpoint" = Ret e
                   /\ py_truthy e = true
                   /\ getitem_str config "telegram_bot_token" = Raise x)
     \/ (exists e t, getitem_str config "telegram_endpoint" = Ret e
                     /\ py_truthy e = true
                     /\ getitem_str config "telegram_bot_token" = Ret t
                     /\ py_truthy t = true
                     /\ getitem_str config "telegram_chat_id" = Raise x)) ->
    telegram.push config content content_html title w = ([], Raise x).
Proof.
  intros config content content_html title w x H.
  unfold telegram.push. unfold_M.
  destruct H as [H1
                | [(e & H1 & T1 & H2)
                  | (e & t & H1 & T1 & H2 & T2 & H3)]].
  - rewrite H1. reflexivity.
  - rewrite H1, T1. cbn [negb]. cbv beta iota. rewrite H2. reflexivity.
  - rewrite H1, T1. cbn [negb]. cbv beta iota. rewrite H2, T2.
    cbn [negb]. cbv beta iota. rewrite H3. reflexivity.
Qed.

Lemma telegram_missing_setting_raises_witness :
  telegram.push (PDict [("push_types", PStr "telegram")])
    (PStr "text") (PStr "html") (PStr "title") world_signed
  = ([], Raise (KeyError (PStr "telegram_endpoint"))).
Proof.
  apply telegram_missing_setting_raises. left. reflexivity.
Defined.

(** X11: Telegram, fully configured: one request is sent, and the outcome is
    [False] when the request raises or when the answer has status 200 and a
    body that is not JSON, and [True] otherwise, a status other than 200
    included. *)
Theorem telegram_outcome :
  forall (config token chat_id proxy content content_html title : pyval)
         (endpoint : string) (w : world),
    telegram_configured config (PStr endpoint) token chat_id proxy ->
    telegram.push config content content_html title w
    = ([EvPost (telegram_request endpoint token chat_id proxy title content_html)],
       Ret (PBool
              match http_post w (telegram_request endpoint token chat_id proxy
                                   title content_html) with
              | Raise _ => false
              | Ret resp =>
                  if status_code resp =? 200
                  then match json_body resp with
                       | Ret _ => true
                       | Raise _ => false
                       end
                  else true
              end)).
Proof.
  intros config token chat_id proxy content content_html title endpoint w
         (H1 & T1 & H2 & T2 & H3 & T3 & H4).
  unfold telegram.push, telegram.Pusher_send. unfold_M.
  rewrite H1, T1. cbn [negb]. cbv beta iota.
  rewrite H2, T2. cbn [negb]. cbv beta iota.
  rewrite H3, T3. cbn [negb]. cbv beta iota.
  rewrite H4. unfold telegram_request.
  match goal with
  | |- context [http_post w ?r] => destruct (http_post w r) as [resp|e]
  end; [|reflexivity].
  destruct (status_code resp =? 200); [|reflexivity].
  destruct (json_body resp); reflexivity.
Qed.

Lemma telegram_outcome_witness :
  telegram.push (ex_config (PStr "telegram")) (PStr "text") (PStr "html")
    (PStr "title")
    (mk_world (Raise RequestException) (Raise RequestException)
       (Ret {| status_code := 200; text := "<html>";
               json_body := Raise JSONDecodeError |}))
  = ([EvPost (telegram_request "https://api.telegram.org" (PStr "123:abc")
                (PStr "42") (PStr "") (PStr "title") (PStr "html"))],
     Ret (PBool false)).
Proof.
  apply (telegram_outcome (ex_config (PStr "telegram")) (PStr "123:abc")
           (PStr "42") (PStr "") (PStr "text") (PStr "html") (PStr "title")
           "https://api.telegram.org").
  repeat split.
Defined.

(** X12: Telegram never raises once its three settings keys are in the
    configuration: it returns a bool and sends at most one request. *)
Theorem telegram_returns_bool :
  forall (config content content_html title e t c : pyval) (w : world),
    getitem_str config "telegram_endpoint" = Ret e ->
    getitem_str config "telegram_bot_token" = Ret t ->
    getitem_str config "telegram_chat_id" = Ret c ->
    exists b,
      snd (telegram.push config content content_html title w) = Ret (PBool b)
      /\ (List.length (fst (telegram.push config content content_html title w))
          <= 1)%nat.
Proof.
  intros config content content_html title e t c w H1 H2 H3.
  unfold telegram.push, telegram.Pusher_send. unfold_M.
  rewrite H1, H2, H3.
  repeat (destruct_scrutinee; cbv beta iota);
    eexists; (split; [reflexivity | simpl; lia]).
Qed.

Lemma telegram_returns_bool_witness :
  exists b,
    snd (telegram.push
           (PDict [("telegram_endpoint", PInt 7);
                   ("telegram_bot_token", PStr "123:abc");
                   ("telegram_chat_id", PStr "42")])
           (PStr "text") (PStr "html") (PStr "title") world_signed)
    = Ret (PBool b).
Proof.
  destruct (telegram_returns_bool
              (PDict [("telegram_endpoint", PInt 7);
                      ("telegram_bot_token", PStr "123:abc");
                      ("telegram_chat_id", PStr "42")])
              (PStr "text") (PStr "html") (PStr "title")
              (PInt 7) (PStr "123:abc") (PStr "42") world_signed)
    as (b & H & _); try reflexivity.
  exists b. exact H.
Defined.

Lemma pushplus_push_outcome_witness :
  pushplus.push (ex_config (PStr "pushplus")) (PStr "text") (PStr "html")
    (PStr "title") world_channels_403
  = ([EvPost (pushplus_request (PStr "pp-token") (PStr "title") (PStr "text"))],
     Ret (PBool true)).
Proof.
  apply (pushplus_push_outcome (ex_config (PStr "pushplus")) (PStr "pp-token")
           (PStr "text") (PStr "html") (PStr "title") world_channels_403);
    reflexivity.
Defined.

(** X14: PushPlus: an empty token gives [False] with nothing sent; a
    configuration without the key makes [push] raise the [KeyError]. *)
Theorem pushplus_without_token :
  forall (config content content_html title : pyval) (w : world),
    (forall token,
        getitem_str config "pushplus_token" = Ret token ->
        py_truthy token = false ->
        pushplus.push config content content_html title w
        = ([], Ret (PBool false)))
    /\ (forall x,
          getitem_str config "pushplus_token" = Raise x ->
          pushplus.push config content content_html title w = ([], Raise x)).
Proof.
  intros config content content_html title w. split.
  - intros token H T. unfold pushplus.push. unfold_M. rewrite H, T. reflexivity.
  - intros x H. unfold pushplus.push. unfold_M. rewrite H. reflexivity.
Qed.

Lemma pushplus_without_token_witness :
  pushplus.push (PDict [("pushplus_token", PStr "")])
    (PStr "text") (PStr "html") (PStr "title") world_signed
  = ([], Ret (PBool false))
  /\ pushplus.push (PDict []) (PStr "text") (PStr "html") (PStr "title")
       world_signed
     = ([], Raise (KeyError (PStr "pushplus_token"))).
Proof.
  split.
  - apply (proj1 (pushplus_without_token (PDict [("pushplus_token", PStr "")])
                    (PStr "text") (PStr "html") (PStr "title") world_signed)
             (PStr "")); reflexivity.
  - apply (proj2 (pushplus_without_token (PDict [])
                    (PStr "text") (PStr "html") (PStr "title") world_signed)).
    reflexivity.
Defined.

(** ** The fan-out, beyond the claims *)

Lemma push_loop_raises (configured : list string)
    (config content content_html title : pyval) (w : world) :
  forall (items : list (string * pusher)) (tr : list event) (e : exn),
    Forall (fun np => quiet (snd np)) items ->
    push_loop configured items config content content_html title w
    = (tr, Raise e) ->
    exists pre n p post,
      items = (pre ++ (n, p) :: post)%list
      /\ str_in n configured = true
      /\ snd (p config content content_html title w) = Raise e
      /\ pushed tr
         = (filter (fun n => str_in n configured) (map fst pre) ++ [n])%list.
Proof.
  induction items as [|[n p] items IH]; intros tr e Hq H.
  - discriminate H.
  - inversion Hq as [|? ? Hp Hrest]; subst. simpl in Hp.
    simpl push_loop in H. unfold bind in H.
    destruct (str_in n configured) eqn:En.
    + unfold emit in H. cbv beta iota in H.
      pose proof (Hp config content content_html title w) as Hpw.
      destruct (p config content content_html title w) as [tp [v|x]] eqn:Ep;
        simpl in Hpw.
      * unfold ret in H. cbv beta iota in H.
        destruct (push_loop configured items config content content_html title w)
          as [t2 [u|x]] eqn:E2; [discriminate|].
        injection H as H Hx. subst tr x.
        destruct (IH t2 e Hrest eq_refl) as (pre & n' & p' & post & I1 & I2 & I3 & I4).
        exists ((n, p) :: pre), n', p', post. subst items.
        split; [reflexivity|]. split; [exact I2|]. split; [exact I3|].
        simpl pushed. rewrite !pushed_app, Hpw, I4. simpl. rewrite En.
        reflexivity.
      * injection H as H Hx. subst tr x.
        exists [], n, p, items. split; [reflexivity|]. split; [exact En|].
        split; [rewrite Ep; reflexivity|].
        simpl. rewrite Hpw. reflexivity.
    + unfold ret in H. cbv beta iota in H.
      destruct (push_loop configured items config content content_html title w)
        as [t2 [u|x]] eqn:E2; [discriminate|].
      injection H as H Hx. subst tr x.
      destruct (IH t2 e Hrest eq_refl) as (pre & n' & p' & post & I1 & I2 & I3 & I4).
      exists ((n, p) :: pre), n', p', post. subst items.
      split; [reflexivity|]. split; [exact I2|]. split; [exact I3|].
      simpl. rewrite En. exact I4.
Qed.

(** X15: A channel whose [push] raises stops the fan-out: [push] raises the same
    exception, the channels entered are the enabled ones up to the one that
    raised, and no channel that comes after it in the fixed order is
    entered. *)
Theorem push_channel_error_stops_fanout :
  forall (config content content_html title : pyval) (w : world)
         (configured : list string) (tr : list event) (e : exn),
    configured_push_types config = Ret configured ->
    push config content content_html title w = (tr, Raise e) ->
    exists pre n p post,
      pushers = (pre ++ (n, p) :: post)%list
      /\ str_in n configured = true
      /\ snd (p config content content_html title w) = Raise e
      /\ pushed tr
         = (filter (fun n => str_in n configured) (map fst pre) ++ [n])%list
      /\ (forall m, In m (map fst post) -> ~ In m (pushed tr)).
Proof.
  intros config content content_html title w configured tr e Hc H.
  rewrite (push_of_loop _ _ _ _ _ _ Hc) in H.
  destruct (push_loop configured pushers config content content_html title w)
    as [t [u|x]] eqn:E; [discriminate|].
  injection H as H Hx. subst t x.
  destruct (push_loop_raises _ _ _ _ _ _ _ _ _ pushers_quiet E)
    as (pre & n & p & post & I1 & I2 & I3 & I4).
  exists pre, n, p, post. repeat (split; [assumption|]).
  intros m Hm Hin. rewrite I4 in Hin.
  pose proof known_channels_NoDup as ND. unfold known_channels in ND.
  rewrite I1, map_app in ND. simpl map in ND.
  apply NoDup_remove in ND. destruct ND as (ND1 & ND2).
  apply in_app_or in Hin. destruct Hin as [Hin | [Hin | []]].
  - apply filter_In in Hin. destruct Hin as (Hin & _).
    apply NoDup_app_remove_l in ND1 as ND3.
    assert (ND4 : NoDup (map fst pre ++ map fst post)) by exact ND1.
    clear - Hin Hm ND4.
    induction (map fst pre) as [|a l IHl]; [contradiction|].
    simpl in ND4. inversion ND4 as [|? ? Ha Hl]; subst.
    destruct Hin as [Hin | Hin].
    + subst a. apply Ha. apply in_or_app. right. exact Hm.
    + apply IHl; assumption.
  - subst m. apply ND2. apply in_or_app. right. exact Hm.
Qed.

Lemma push_channel_error_stops_fanout_witness :
  exists pre n p post,
    pushers = (pre ++ (n, p) :: post)%list
    /\ str_in n ["telegram"; "pushplus"] = true
    /\ snd (p (PDict [("push_types", PList [PStr "telegram"; PStr "pushplus"]);
                      ("pushplus_token", PStr "pp-token")])
              (PStr "text") (PStr "html") (PStr "title") world_signed)
       = Raise (KeyError (PStr "telegram_endpoint"))
    /\ pushed [EvPush "telegram"]
       = (filter (fun n => str_in n ["telegram"; "pushplus"]) (map fst pre)
          ++ [n])%list
    /\ (forall m, In m (map fst post) -> ~ In m (pushed [EvPush "telegram"])).
Proof.
  apply (push_channel_error_stops_fanout
           (PDict [("push_types", PList [PStr "telegram"; PStr "pushplus"]);
                   ("pushplus_token", PStr "pp-token")])
           (PStr "text") (PStr "html") (PStr "title") world_signed
           ["telegram"; "pushplus"] [EvPush "telegram"]
           (KeyError (PStr "telegram_endpoint"))).
  - reflexivity.
  - reflexivity.
Defined.

Lemma map_res_lower_strip_raises (l : list pyval) :
  Exists (fun v => forall s, v <> PStr s) l ->
  map_res lower_strip l = Raise AttributeError.
Proof.
  induction 1 as [v l Hv | v l _ IH]; simpl.
  - destruct v; try reflexivity. exfalso. apply (Hv s). reflexivity.
  - destruct v; try reflexivity. simpl. rewrite IH. reflexivity.
Qed.

(** X16: When the enabled names cannot be read, [push] raises before any channel
    is entered: [KeyError] (or what the lookup raises) when the
    configuration has no [push_types], [AttributeError] when [push_types] is
    a list with an item that is not a string. *)
Theorem push_unreadable_push_types_raises :
  forall (config content content_html title : pyval) (w : world),
    (forall e, getitem_str config "push_types" = Raise e ->
               push config content content_html title w = ([], Raise e))
    /\ (forall l, getitem_str config "push_types" = Ret (PList l) ->
                  Exists (fun v => forall s, v <> PStr s) l ->
                  push config content content_html title w
                  = ([], Raise AttributeError)).
Proof.
  intros config content content_html title w. split.
  - intros e H. unfold push, configured_push_types, bind, lift.
    rewrite H. reflexivity.
  - intros l H Hl. unfold push, configured_push_types, bind, lift.
    rewrite H. simpl. rewrite (map_res_lower_strip_raises l Hl). reflexivity.
Qed.

Lemma push_unreadable_push_types_raises_witness :
  push (PDict []) (PStr "text") (PStr "html") (PStr "title") world_signed
  = ([], Raise (KeyError (PStr "push_types")))
  /\ push (PDict [("push_types", PList [PStr "telegram"; PNone])])
       (PStr "text") (PStr "html") (PStr "title") world_signed
     = ([], Raise AttributeError).
Proof.
  split.
  - apply (proj1 (push_unreadable_push_types_raises (PDict [])
                    (PStr "text") (PStr "html") (PStr "title") world_signed)).
    reflexivity.
  - apply (proj2 (push_unreadable_push_types_raises
                    (PDict [("push_types", PList [PStr "telegram"; PNone])])
                    (PStr "text") (PStr "html") (PStr "title") world_signed)
             [PStr "telegram"; PNone]).
    + reflexivity.
    + right. left. discriminate.
Defined.

(** X17: Names that are not known channels are ignored: when no enabled name is
    a known channel, [push] does nothing and returns [None]. *)
Theorem push_without_known_channel_does_nothing :
  forall (config content content_html title : pyval) (w : world)
         (configured : list string),
    configured_push_types config = Ret configured ->
    (forall n, In n known_channels -> str_in n configured = false) ->
    push config content content_html title w = ([], Ret PNone).
Proof.
  intros config content content_html title w configured Hc H.
  rewrite (push_of_loop _ _ _ _ _ _ Hc).
  unfold pushers. simpl push_loop. unfold bind, ret.
  rewrite !H by (simpl; tauto). reflexivity.
Qed.

(** A single string that lists two names with a comma is one name, and not
    a known one. *)
Lemma push_without_known_channel_does_nothing_witness :
  push (ex_config (PStr "telegram,pushplus")) (PStr "text") (PStr "html")
    (PStr "title") world_signed
  = ([], Ret PNone).
Proof.
  apply (push_without_known_channel_does_nothing
           (ex_config (PStr "telegram,pushplus")) (PStr "text") (PStr "html")
           (PStr "title") world_signed ["telegram,pushplus"]).
  - reflexivity.
  - intros n Hn. simpl in Hn.
    destruct Hn as [E|[E|[E|[E|[E|[E|[]]]]]]]; subst n; reflexivity.
Defined.

(** ** Normalisation of the enabled names *)

Lemma py_lower_cons (c : ascii) (s : string) :
  py_lower (String c s) = String (lower_char c) (py_lower s).
Proof. reflexivity. Qed.

Lemma py_lower_app (a b : string) : py_lower (a ++ b) = py_lower a ++ py_lower b.
Proof.
  induction a as [|c a IH]; [reflexivity|].
  simpl append. rewrite !py_lower_cons, IH. reflexivity.
Qed.

Lemma is_space_lower_char (c : ascii) : is_space (lower_char c) = is_space c.
Proof.
  destruct c as [[] [] [] [] [] [] [] []]; reflexivity.
Qed.

Lemma lower_char_idem (c : ascii) : lower_char (lower_char c) = lower_char c.
Proof.
  destruct c as [[] [] [] [] [] [] [] []]; reflexivity.
Qed.

Lemma py_lower_idem (s : string) : py_lower (py_lower s) = py_lower s.
Proof.
  induction s as [|c s IH]; [reflexivity|].
  rewrite !py_lower_cons, lower_char_idem, IH. reflexivity.
Qed.

Lemma all_space_lower (a : string) : all_space (py_lower a) = all_space a.
Proof.
  induction a as [|c a IH]; [reflexivity|].
  rewrite py_lower_cons. simpl. rewrite is_space_lower_char, IH. reflexivity.
Qed.

Lemma lstrip_all_space (a s : string) :
  all_space a = true -> lstrip (a ++ s) = lstrip s.
Proof.
  induction a as [|c a IH]; intros H; [reflexivity|].
  simpl in H. apply andb_prop in H. destruct H as (Hc & Ha).
  simpl. rewrite Hc. apply IH. exact Ha.
Qed.

Lemma rstrip_all_space (s b : string) :
  all_space b = true -> rstrip (s ++ b) = rstrip s.
Proof.
  intros Hb. induction s as [|c s IH].
  - simpl append. induction b as [|c b IHb]; [reflexivity|].
    simpl in Hb. apply andb_prop in Hb. destruct Hb as (Hc & Hb).
    simpl. rewrite (IHb Hb), Hc. reflexivity.
  - simpl. rewrite IH. reflexivity.
Qed.

Lemma strip_trailing_space (s b : string) :
  all_space b = true -> rstrip (lstrip (s ++ b)) = rstrip (lstrip s).
Proof.
  intros Hb. induction s as [|c s IH].
  - simpl append. rewrite <- (string_app_nil_r b).
    rewrite (lstrip_all_space b "" Hb). reflexivity.
  - simpl append. simpl lstrip. destruct (is_space c); [exact IH|].
    change (String c (s ++ b)) with (String c s ++ b).
    apply rstrip_all_space. exact Hb.
Qed.

(** X18: A name is enabled whatever its ASCII case and whatever whitespace
    surrounds it: padding a name, or lowering it beforehand, does not change
    what it is normalised to. *)
Theorem lower_strip_ignores_case_and_padding :
  forall a s b : string,
    all_space a = true -> all_space b = true ->
    lower_strip (PStr (a ++ s ++ b)) = lower_strip (PStr s)
    /\ lower_strip (PStr (py_lower s)) = lower_strip (PStr s).
Proof.
  intros a s b Ha Hb. split.
  - unfold lower_strip, py_strip. f_equal.
    rewrite !py_lower_app.
    rewrite lstrip_all_space by (rewrite all_space_lower; exact Ha).
    apply strip_trailing_space. rewrite all_space_lower. exact Hb.
  - unfold lower_strip. rewrite py_lower_idem. reflexivity.
Qed.

Lemma lower_strip_ignores_case_and_padding_witness :
  lower_strip (PStr ("  " ++ "TeleGram" ++ " ")) = lower_strip (PStr "TeleGram")
  /\ lower_strip (PStr (py_lower "TeleGram")) = lower_strip (PStr "TeleGram").
Proof.
  apply lower_strip_ignores_case_and_padding; reflexivity.
Defined.

(** ** The credentials as one comma-separated string *)

Lemma split_comma_not_nil (s : string) : split_comma s <> [].
Proof.
  destruct s as [|c s]; simpl; [discriminate|].
  destruct (Ascii.eqb c comma); [discriminate|].
  destruct (split_comma s); discriminate.
Qed.

(** X19: Joining with commas what [split(',')] gives is the string again: the
    credentials written to the secret are read back part by part. *)
Theorem join_split_comma :
  forall s : string, join "," (split_comma s) = s.
Proof.
  induction s as [|c s IH]; [reflexivity|].
  simpl split_comma. destruct (Ascii.eqb_spec c comma) as [E|E].
  - subst c. pose proof (split_comma_not_nil s) as N.
    destruct (split_comma s) as [|x l]; [congruence|].
    change (join "," ("" :: x :: l)) with ("," ++ join "," (x :: l)).
    rewrite IH. reflexivity.
  - pose proof (split_comma_not_nil s) as N.
    destruct (split_comma s) as [|x l]; [congruence|].
    destruct l as [|y l].
    + simpl in *. rewrite IH. reflexivity.
    + change (join "," (String c x :: y :: l))
        with (String c (x ++ "," ++ join "," (y :: l))).
      change (join "," (x :: y :: l)) with (x ++ "," ++ join "," (y :: l)) in IH.
      rewrite IH. reflexivity.
Qed.

Lemma split_comma_plain (x : string) :
  string_mem comma x = false -> split_comma x = [x].
Proof.
  induction x as [|c x IH]; intros H; [reflexivity|].
  cbn [string_mem] in H. apply orb_false_elim in H. destruct H as (Hc & Hx).
  cbn [split_comma]. rewrite Ascii.eqb_sym, Hc, (IH Hx). reflexivity.
Qed.

Lemma split_comma_app (x y : string) :
  string_mem comma x = false ->
  split_comma (x ++ String comma y) = x :: split_comma y.
Proof.
  induction x as [|c x IH]; intros H.
  - cbn [append split_comma]. rewrite Ascii.eqb_refl. reflexivity.
  - cbn [string_mem] in H. apply orb_false_elim in H. destruct H as (Hc & Hx).
    cbn [append split_comma]. rewrite Ascii.eqb_sym, Hc, (IH Hx). reflexivity.
Qed.

(** X20: Splitting at the commas the join of at least one credential, none of
    which contains a comma, gives the credentials again. *)
Theorem split_join_comma :
  forall l : list string,
    l <> [] ->
    Forall (fun x => string_mem comma x = false) l ->
    split_comma (join "," l) = l.
Proof.
  induction l as [|x l IH]; intros Hne H; [congruence|].
  inversion H as [|? ? Hx Hl]; subst.
  destruct l as [|y l].
  - simpl. apply split_comma_plain. exact Hx.
  - change (join "," (x :: y :: l)) with (x ++ String comma (join "," (y :: l))).
    rewrite (split_comma_app _ _ Hx). f_equal. apply IH; [discriminate | exact Hl].
Qed.

Lemma split_join_comma_witness :
  split_comma (join "," [ex_token; "fedcba9876543210fedcba9876543210"])
  = [ex_token; "fedcba9876543210fedcba9876543210"].
Proof.
  apply split_join_comma; [discriminate | repeat constructor].
Defined.

(** ** The configuration read from the environment *)

Ltac env_step k :=
  let v := fresh "v" in
  let E := fresh "E" in
  destruct (env_lookup _ k) as [v|] eqn:E;
  [| left; exists k;
     split; [simpl; tauto
            | split; [exact E
                     | cbv beta iota;
                       repeat (destruct_scrutinee; cbv beta iota);
                       reflexivity]]].

Lemma env_list_split (v : string) :
  (if negb (py_truthy (PStr v))
   then PList [PStr v]
   else PList (map PStr (split_comma v)))
  = PList (map PStr (split_comma v)).
Proof.
  simpl py_truthy. rewrite negb_involutive.
  destruct (String.eqb_spec v "") as [E|E]; [subst; reflexivity | reflexivity].
Qed.

Lemma get_config_from_env_cases (env : environment) :
  (exists k,
      In k required_env /\ env_lookup env k = None
      /\ get_config_from_env env = Ret PNone)
  \/ (exists rt pt tb tc ppt cfg,
        env_lookup env "REFRESH_TOKENS" = Some rt
        /\ env_lookup env "PUSH_TYPES" = Some pt
        /\ env_lookup env "TELEGRAM_BOT_TOKEN" = Some tb
        /\ env_lookup env "TELEGRAM_CHAT_ID" = Some tc
        /\ env_lookup env "PUSHPLUS_TOKEN" = Some ppt
        /\ (forall k, In k required_env -> env_lookup env k <> None)
        /\ get_config_from_env env = Ret cfg
        /\ py_truthy cfg = true
        /\ getitem_str cfg "refresh_tokens"
           = Ret (PList (map PStr (split_comma rt)))
        /\ getitem_str cfg "push_types"
           = Ret (PList (map PStr (split_comma pt)))
        /\ getitem_str cfg "telegram_endpoint"
           = Ret (PStr "https://api.telegram.org")
        /\ getitem_str cfg "telegram_bot_token" = Ret (PStr tb)
        /\ getitem_str cfg "telegram_chat_id" = Ret (PStr tc)
        /\ getitem_str cfg "telegram_proxy" = Ret PNone
        /\ getitem_str cfg "pushplus_token" = Ret (PStr ppt)).
Proof.
  unfold get_config_from_env, env_list, env_str, env_get, rbind.
  env_step "REFRESH_TOKENS". env_step "PUSH_TYPES".
  env_step "SERVERCHAN_SEND_KEY". env_step "TELEGRAM_BOT_TOKEN".
  env_step "TELEGRAM_CHAT_ID". env_step "PUSHPLUS_TOKEN".
  env_step "SMTP_HOST". env_step "SMTP_PORT". env_step "SMTP_TLS".
  env_step "SMTP_USER". env_step "SMTP_PASSWORD". env_step "SMTP_SENDER".
  env_step "SMTP_RECEIVER".
  right. exists v, v0, v2, v3, v4.
  pose proof (env_list_split v) as L1. pose proof (env_list_split v0) as L2.
  destruct (negb (py_truthy (PStr v))); destruct (negb (py_truthy (PStr v0)));
    cbv beta iota; eexists;
    (repeat (split; [reflexivity|]));
    (split; [intros k Hk; simpl in Hk;
             repeat (destruct Hk as [Hk|Hk]; [subst k; congruence|]);
             contradiction|]);
    (split; [reflexivity|]); (split; [reflexivity|]);
    (split; [simpl; rewrite <- ?L1; reflexivity|]);
    (split; [simpl; rewrite <- ?L2; reflexivity|]);
    repeat split.
Qed.

(** X21: [get_config_from_env] never raises, and it returns [None] exactly when
    one of the thirteen variables it reads is not set. *)
Theorem get_config_from_env_None_iff_variable_missing :
  forall env : environment,
    (exists v, get_config_from_env env = Ret v)
    /\ (get_config_from_env env = Ret PNone
        <-> exists k, In k required_env /\ env_lookup env k = None).
Proof.
  intros env.
  destruct (get_config_from_env_cases env)
    as [(k & Hk & Hn & Hg)
       | (rt & pt & tb & tc & ppt & cfg & _ & _ & _ & _ & _ & Hall & Hg & Ht & _)].
  - split; [eauto|]. split; [intros _; eauto | intros _; exact Hg].
  - split; [eauto|]. split.
    + intros H. rewrite Hg in H. injection H as H. subst cfg. discriminate Ht.
    + intros (k & Hk & Hn). destruct (Hall k Hk Hn).
Qed.

Lemma map_res_lower_strip_strings (l : list string) :
  map_res lower_strip (map PStr l)
  = Ret (map (fun s => py_strip (py_lower s)) l).
Proof.
  induction l as [|x l IH]; [reflexivity|].
  simpl. rewrite IH. reflexivity.
Qed.

(** X22: With every variable set, the users of the run are the comma-separated
    parts of [REFRESH_TOKENS], the enabled names are the normalised parts of
    [PUSH_TYPES], and the Telegram endpoint is the public one, without a
    proxy. *)
Theorem env_config_users_and_channels :
  forall (env : environment) (rt pt : string),
    (forall k, In k required_env -> env_lookup env k <> None) ->
    env_lookup env "REFRESH_TOKENS" = Some rt ->
    env_lookup env "PUSH_TYPES" = Some pt ->
    exists cfg,
      get_config_from_env env = Ret cfg
      /\ py_truthy cfg = true
      /\ users_of cfg = Ret (map PStr (split_comma rt))
      /\ configured_push_types cfg
         = Ret (map (fun s => py_strip (py_lower s)) (split_comma pt))
      /\ getitem_str cfg "telegram_endpoint"
         = Ret (PStr "https://api.telegram.org")
      /\ getitem_str cfg "telegram_proxy" = Ret PNone.
Proof.
  intros env rt pt Hall Hrt Hpt.
  destruct (get_config_from_env_cases env)
    as [(k & Hk & Hn & _)
       | (rt' & pt' & tb & tc & ppt & cfg & E1 & E2 & _ & _ & _ & _ & Hg & Ht
          & G1 & G2 & G3 & _ & _ & G6 & _)].
  - destruct (Hall k Hk Hn).
  - rewrite Hrt in E1. injection E1 as E1. rewrite Hpt in E2. injection E2 as E2.
    subst rt' pt'. exists cfg.
    split; [exact Hg|]. split; [exact Ht|]. split.
    + unfold users_of. rewrite G1. reflexivity.
    + split; [|split; assumption].
      unfold configured_push_types. rewrite G2. simpl.
      apply map_res_lower_strip_strings.
Qed.

Lemma env_config_users_and_channels_witness :
  exists cfg,
    get_config_from_env ex_environ = Ret cfg
    /\ users_of cfg = Ret [PStr ex_token]
    /\ configured_push_types cfg = Ret ["telegram"; "pushplus"].
Proof.
  destruct (env_config_users_and_channels ex_environ ex_token
              "Telegram,pushplus")
    as (cfg & H1 & _ & H3 & H4 & _).
  - intros k Hk. simpl in Hk.
    repeat (destruct Hk as [Hk|Hk]; [subst k; discriminate|]). contradiction.
  - reflexivity.
  - reflexivity.
  - exists cfg. split; [exact H1|]. split; [exact H3 | exact H4].
Defined.

(** ** [main]: the sessions, the report and the credentials *)

Lemma env_lookup_set_same (env : environment) (k v : string) :
  env_lookup (env_set env k v) k = Some v.
Proof.
  induction env as [|[k' v'] env IH]; simpl.
  - rewrite String.eqb_refl. reflexivity.
  - destruct (String.eqb k' k) eqn:E; simpl.
    + rewrite String.eqb_refl. reflexivity.
    + rewrite E. exact IH.
Qed.

Lemma env_lookup_set_other (env : environment) (k v k0 : string) :
  k0 <> k -> env_lookup (env_set env k v) k0 = env_lookup env k0.
Proof.
  intros Hne. induction env as [|[k' v'] env IH]; simpl.
  - destruct (String.eqb_spec k k0); [congruence | reflexivity].
  - destruct (String.eqb_spec k' k) as [E|E]; simpl.
    + subst k'. destruct (String.eqb_spec k k0); [congruence | reflexivity].
    + destruct (String.eqb k' k0); [reflexivity | exact IH].
Qed.

Lemma dict_get_set_same (d : list (string * pyval)) (k : string) (v : pyval) :
  dict_get (dict_set d k v) k = Some v.
Proof.
  induction d as [|[k' v'] d IH]; simpl.
  - rewrite String.eqb_refl. reflexivity.
  - destruct (String.eqb k' k) eqn:E; simpl.
    + rewrite String.eqb_refl. reflexivity.
    + rewrite E. exact IH.
Qed.

Lemma dict_get_set_other (d : list (string * pyval)) (k k0 : string) (v : pyval) :
  k0 <> k -> dict_get (dict_set d k v) k0 = dict_get d k0.
Proof.
  intros Hne. induction d as [|[k' v'] d IH]; simpl.
  - destruct (String.eqb_spec k k0); [congruence | reflexivity].
  - destruct (String.eqb_spec k' k) as [E|E]; simpl.
    + subst k'. destruct (String.eqb_spec k k0); [congruence | reflexivity].
    + destruct (String.eqb k' k0); [reflexivity | exact IH].
Qed.

Lemma run_quiet (self : SignIn.t) : quietM (SignIn.run self).
Proof.
  intros w. unfold SignIn.run, bind.
  pose proof (get_access_token_trace self w) as T1.
  destruct (SignIn.__get_access_token self w) as [t1 [[s1 b]|e]];
    simpl in T1; subst t1; [|reflexivity].
  destruct b.
  - pose proof (sign_in_trace s1 w) as T2.
    destruct (SignIn.__sign_in s1 w) as [t2 [s2|e]]; simpl in T2; subst t2;
      reflexivity.
  - reflexivity.
Qed.

Lemma run_users_quiet (config : pyval) (users : list pyval) :
  quietM (run_users config users).
Proof.
  induction users as [|u users IH]; simpl; [apply quietM_ret|].
  apply quietM_bind; [apply quietM_lift|]. intros self.
  apply quietM_bind; [apply run_quiet|]. intros r.
  apply quietM_bind; [exact IH|]. intros rs. apply quietM_ret.
Qed.

Lemma run_users_cons (config : pyval) (tok : string) (rest : list pyval)
    (w : world) :
  run_users config (PStr tok :: rest) w
  = match SignIn.session config tok w with
    | (t1, Ret (_, r)) =>
        match run_users config rest w with
        | (t2, Ret rs) => ((t1 ++ t2)%list, Ret (r :: rs))
        | (t2, Raise e) => ((t1 ++ t2)%list, Raise e)
        end
    | (t1, Raise e) => (t1, Raise e)
    end.
Proof.
  destruct (session_run config tok w) as (self0 & Hinit & Hrun).
  rewrite Hrun. simpl run_users. unfold new_SignIn. rewrite Hinit.
  unfold bind, lift, ret. cbv beta iota.
  destruct (SignIn.run self0 w) as [t1 [[self r]|e]]; [|reflexivity].
  destruct (run_users config rest w) as [t2 [rs|e]]; simpl;
    rewrite ?app_nil_r; reflexivity.
Qed.

(** X24: Every credential gives exactly one result, in the order of the
    credentials, and the requests of the loop are the requests of the
    sessions one after the other. *)
Theorem run_users_one_result_per_credential :
  forall (config : pyval) (w : world) (toks : list string)
         (tr : list event) (rs : list SignIn.Result),
    run_users config (map PStr toks) w = (tr, Ret rs) ->
    List.length rs = List.length toks
    /\ Forall2 (fun tok r =>
                  exists t self, SignIn.session config tok w = (t, Ret (self, r)))
               toks rs
    /\ tr = List.concat (map (fun tok => fst (SignIn.session config tok w)) toks).
Proof.
  intros config w. induction toks as [|tok toks IH]; intros tr rs H.
  - simpl in H. unfold ret in H. injection H as H1 H2. subst.
    repeat split. constructor.
  - simpl map in H. rewrite run_users_cons in H.
    destruct (SignIn.session config tok w) as [t1 [[self r]|e]] eqn:S;
      [|discriminate].
    destruct (run_users config (map PStr toks) w) as [t2 [rs'|e]] eqn:R;
      [|discriminate].
    injection H as H1 H2. subst tr rs.
    destruct (IH t2 rs' eq_refl) as (I1 & I2 & I3).
    split; [simpl; rewrite I1; reflexivity|]. split.
    + constructor; [exists t1, self; exact S | exact I2].
    + simpl. rewrite S, I3. reflexivity.
Qed.

Lemma run_users_one_result_per_credential_witness :
  exists r1 r2,
    snd (run_users (ex_config (PStr "")) (map PStr [ex_token; "tiny"])
           world_signed)
    = Ret [r1; r2]
    /\ List.length [r1; r2] = 2%nat.
Proof.
  assert (E : exists tr r1 r2,
             run_users (ex_config (PStr "")) (map PStr [ex_token; "tiny"])
               world_signed = (tr, Ret [r1; r2]))
    by (do 3 eexists; reflexivity).
  destruct E as (tr & r1 & r2 & E).
  exists r1, r2. split; [rewrite E; reflexivity|].
  apply (run_users_one_result_per_credential _ _ _ _ _ E).
Defined.

Lemma run_users_raises (config : pyval) (w : world) (tok : string)
    (post : list string) (e : exn) :
  forall pre : list string,
    Forall (fun t => exists r, snd (SignIn.session config t w) = Ret r) pre ->
    snd (SignIn.session config tok w) = Raise e ->
    run_users config (map PStr (pre ++ tok :: post)) w
    = (List.concat (map (fun t => fst (SignIn.session config t w)) (pre ++ [tok])),
       Raise e).
Proof.
  induction pre as [|t pre IH]; intros Hpre Htok.
  - simpl app. simpl map. rewrite run_users_cons.
    destruct (SignIn.session config tok w) as [t1 [[self r]|x]];
      simpl in Htok; [discriminate|].
    injection Htok as Htok. subst x. simpl. rewrite app_nil_r. reflexivity.
  - inversion Hpre as [|? ? Ht Hrest]; subst.
    simpl app. simpl map. rewrite run_users_cons.
    destruct Ht as (r & Ht).
    destruct (SignIn.session config t w) as [t1 [[self r']|x]];
      simpl in Ht; [|discriminate].
    rewrite (IH Hrest Htok). reflexivity.
Qed.

Lemma main_with_config (p : process) (w : world) (config : pyval)
    (users : list pyval) :
  load_config p = Ret config ->
  py_truthy config = true ->
  users_of config = Ret users ->
  main p w
  = match run_users config users w with
    | (t1, Ret results) =>
        match push config (PStr (report_text results))
                (PStr (report_html results)) report_title w with
        | (t2, Ret _) =>
            let (t3, r) :=
              update_refresh_tokens p (by_action_of (argv p)) config results w in
            ((t1 ++ t2 ++ t3)%list, r)
        | (t2, Raise e) => ((t1 ++ t2)%list, Raise e)
        end
    | (t1, Raise e) => (t1, Raise e)
    end.
Proof.
  intros Hc Ht Hu. unfold main, bind, lift. rewrite Hc, Ht, Hu.
  cbn [negb]. cbv beta iota.
  destruct (run_users config users w) as [t1 [results|e]]; [|reflexivity].
  destruct (push config (PStr (report_text results))
              (PStr (report_html results)) report_title w) as [t2 [v|e]];
    [|reflexivity].
  destruct (update_refresh_tokens p (by_action_of (argv p)) config results w)
    as [t3 r]. reflexivity.
Qed.

(** X25: Without a configuration nothing is done: in action mode when a variable
    is missing, in local mode when [config.ini] gives an empty
    configuration, [main] returns after having made no request and entered
    no channel. *)
Theorem main_without_config_does_nothing :
  forall (p : process) (w : world),
    (by_action_of (argv p) = true
     /\ exists k, In k required_env /\ env_lookup (environ p) k = None)
    \/ (by_action_of (argv p) = false
        /\ exists c, config_ini p = Ret c /\ py_truthy c = false) ->
    main p w
    = ([], Ret {| environ_after := env_set (environ p) "NO_PROXY" "*";
                  results_of := [];
                  config_after := None;
                  secret_written := None |}).
Proof.
  intros p w H.
  assert (L : exists c, load_config p = Ret c /\ py_truthy c = false).
  { unfold load_config.
    destruct H as [(Ha & k & Hk & Hn) | (Ha & c & Hc & Ht)]; rewrite Ha.
    - exists PNone. split; [|reflexivity].
      destruct (get_config_from_env_cases (env_set (environ p) "NO_PROXY" "*"))
        as [(k' & _ & _ & Hg)
           | (rt & pt & tb & tc & ppt & cfg & _ & _ & _ & _ & _ & Hall & _)];
        [exact Hg|].
      exfalso. apply (Hall k Hk).
      rewrite env_lookup_set_other; [exact Hn|].
      simpl in Hk.
      repeat (destruct Hk as [Hk|Hk]; [subst k; discriminate|]).
      contradiction.
    - exists c. split; assumption. }
  destruct L as (c & Hc & Ht).
  unfold main, bind, lift, ret. rewrite Hc, Ht. reflexivity.
Qed.

Lemma main_without_config_does_nothing_witness :
  main {| argv := ["app.py"; "action"];
          environ := [("REFRESH_TOKENS", ex_token)];
          config_ini := Raise RequestException;
          update_secret := fun _ _ => Ret tt;
          exn_str := fun _ => "error" |} world_signed
  = ([], Ret {| environ_after := [("REFRESH_TOKENS", ex_token); ("NO_PROXY", "*")];
                results_of := [];
                config_after := None;
                secret_written := None |}).
Proof.
  apply (main_without_config_does_nothing
           {| argv := ["app.py"; "action"];
              environ := [("REFRESH_TOKENS", ex_token)];
              config_ini := Raise RequestException;
              update_secret := fun _ _ => Ret tt;
              exn_str := fun _ => "error" |} world_signed).
  left. split; [reflexivity|].
  exists "PUSH_TYPES". split; [simpl; tauto | reflexivity].
Defined.

(** X26: A session that raises stops [main]: the sessions of the credentials
    before it have run, those after it have not, the exception escapes from
    [main], and no channel is entered, so that no report is sent for any
    credential. *)
Theorem main_session_error_stops_before_report :
  forall (p : process) (w : world) (config : pyval)
         (pre post : list string) (tok : string) (e : exn),
    load_config p = Ret config ->
    py_truthy config = true ->
    users_of config = Ret (map PStr (pre ++ tok :: post)) ->
    Forall (fun t => exists r, snd (SignIn.session config t w) = Ret r) pre ->
    snd (SignIn.session config tok w) = Raise e ->
    main p w
    = (List.concat (map (fun t => fst (SignIn.session config t w)) (pre ++ [tok])),
       Raise e)
    /\ pushed (fst (main p w)) = [].
Proof.
  intros p w config pre post tok e Hc Ht Hu Hpre Htok.
  assert (E : main p w
              = (List.concat (map (fun t => fst (SignIn.session config t w))
                                  (pre ++ [tok])), Raise e)).
  { rewrite (main_with_config p w config _ Hc Ht Hu).
    rewrite (run_users_raises config w tok post e pre Hpre Htok). reflexivity. }
  split; [exact E|].
  pose proof (run_users_quiet config (map PStr (pre ++ tok :: post)) w) as Q.
  rewrite (run_users_raises config w tok post e pre Hpre Htok) in Q.
  rewrite E. exact Q.
Qed.

Lemma main_session_error_stops_before_report_witness :
  main (ex_process ["app.py"]
          (PDict [("refresh_tokens", PList [PStr "tiny"; PStr ex_token]);
                  ("push_types", PStr "pushplus");
                  ("pushplus_token", PStr "pp-token")])
          (Ret tt))
       world_all_signed
  = (List.concat
       (map (fun t =>
               fst (SignIn.session
                      (PDict [("refresh_tokens", PList [PStr "tiny"; PStr ex_token]);
                              ("push_types", PStr "pushplus");
                              ("pushplus_token", PStr "pp-token")])
                      t world_all_signed))
            ([] ++ ["tiny"])),
     Raise TypeError).
Proof.
  apply (main_session_error_stops_before_report
           (ex_process ["app.py"]
              (PDict [("refresh_tokens", PList [PStr "tiny"; PStr ex_token]);
                      ("push_types", PStr "pushplus");
                      ("pushplus_token", PStr "pp-token")])
              (Ret tt))
           world_all_signed
           (PDict [("refresh_tokens", PList [PStr "tiny"; PStr ex_token]);
                   ("push_types", PStr "pushplus");
                   ("pushplus_token", PStr "pp-token")])
           [] [ex_token] "tiny" TypeError).
  - reflexivity.
  - reflexivity.
  - reflexivity.
  - constructor.
  - reflexivity.
Defined.

Lemma run_users_length (config : pyval) (w : world) :
  forall (users : list pyval) (tr : list event) (rs : list SignIn.Result),
    run_users config users w = (tr, Ret rs) ->
    List.length rs = List.length users.
Proof.
  induction users as [|u users IH]; intros tr rs H.
  - simpl in H. unfold ret in H. injection H as _ H. subst. reflexivity.
  - simpl in H. unfold bind, lift, ret in H.
    destruct (new_SignIn config u) as [self|e]; [|discriminate].
    destruct (SignIn.run self w) as [t1 [r|e]]; [|discriminate].
    destruct (run_users config users w) as [t2 [rs'|e]] eqn:R; [|discriminate].
    injection H as _ H. subst rs. simpl. rewrite (IH t2 rs' eq_refl).
    reflexivity.
Qed.

Lemma main_inv (p : process) (w : world) (config : pyval)
    (tr : list event) (st : main_state) :
  load_config p = Ret config ->
  py_truthy config = true ->
  main p w = (tr, Ret st) ->
  exists users results t1 t2 t3 v,
    users_of config = Ret users
    /\ run_users config users w = (t1, Ret results)
    /\ push config (PStr (report_text results)) (PStr (report_html results))
         report_title w = (t2, Ret v)
    /\ update_refresh_tokens p (by_action_of (argv p)) config results w
       = (t3, Ret st)
    /\ tr = (t1 ++ t2 ++ t3)%list.
Proof.
  intros Hc Ht H.
  destruct (users_of config) as [users|e] eqn:Hu.
  - rewrite (main_with_config p w config users Hc Ht Hu) in H.
    destruct (run_users config users w) as [t1 [results|e]] eqn:R;
      [|discriminate].
    destruct (push config (PStr (report_text results))
                (PStr (report_html results)) report_title w)
      as [t2 [v|e]] eqn:P; [|discriminate].
    destruct (update_refresh_tokens p (by_action_of (argv p)) config results w)
      as [t3 r] eqn:U.
    injection H as H1 H2. subst tr r.
    exists users, results, t1, t2, t3, v. repeat split; assumption || reflexivity.
  - unfold main, bind, lift in H. rewrite Hc, Ht, Hu in H. discriminate H.
Qed.

(** X27: Local mode, when [main] returns: there is one result for each user, the
    credentials of the results, joined with commas in that order, are what
    [refresh_tokens] holds in the configuration object afterwards, every
    other setting is as it was, and no secret is written. *)
Theorem main_local_mode_writes_credentials :
  forall (p : process) (w : world) (config : pyval)
         (tr : list event) (st : main_state),
    by_action_of (argv p) = false ->
    config_ini p = Ret config ->
    py_truthy config = true ->
    main p w = (tr, Ret st) ->
    exists users joined c',
      users_of config = Ret users
      /\ List.length (results_of st) = List.length users
      /\ py_join "," (map SignIn.result_refresh_token (results_of st))
         = Ret joined
      /\ config_after st = Some c'
      /\ getitem_str c' "refresh_tokens" = Ret (PStr joined)
      /\ (forall k, k <> "refresh_tokens" ->
                    getitem_str c' k = getitem_str config k)
      /\ secret_written st = None
      /\ env_lookup (environ_after st) "NO_PROXY" = Some "*".
Proof.
  intros p w config tr st Ha Hi Ht H.
  assert (Hc : load_config p = Ret config)
    by (unfold load_config; rewrite Ha; exact Hi).
  destruct (main_inv p w config tr st Hc Ht H)
    as (users & results & t1 & t2 & t3 & v & Hu & R & _ & U & _).
  rewrite Ha in U. unfold update_refresh_tokens in U.
  cbn [negb] in U. cbv beta iota zeta in U. unfold bind, lift, ret in U.
  destruct (py_join "," (map SignIn.result_refresh_token results))
    as [joined|e] eqn:J; [|discriminate].
  assert (D : exists d, config = PDict d).
  { unfold users_of in Hu. destruct config; try discriminate. eauto. }
  destruct D as (d & D). subst config. simpl in U.
  injection U as _ U. subst st. simpl.
  exists users, joined, (PDict (dict_set d "refresh_tokens" (PStr joined))).
  split; [exact Hu|].
  split; [exact (run_users_length _ _ _ _ _ R)|].
  split; [exact J|]. split; [reflexivity|]. split.
  - simpl. rewrite dict_get_set_same. reflexivity.
  - split.
    + intros k Hk. simpl. rewrite dict_get_set_other by exact Hk. reflexivity.
    + split; [reflexivity | apply env_lookup_set_same].
Qed.

Lemma main_local_mode_writes_credentials_witness :
  exists tr st joined c',
    main (ex_process ["app.py"]
            (ex_config (PList [PStr "pushplus"])) (Ret tt)) world_signed
    = (tr, Ret st)
    /\ config_after st = Some c'
    /\ getitem_str c' "refresh_tokens" = Ret (PStr joined)
    /\ joined = "fedcba9876543210fedcba9876543210".
Proof.
  assert (E : exists tr st,
             main (ex_process ["app.py"]
                     (ex_config (PList [PStr "pushplus"])) (Ret tt))
                  world_signed = (tr, Ret st))
    by (do 2 eexists; reflexivity).
  destruct E as (tr & st & E).
  destruct (main_local_mode_writes_credentials
              (ex_process ["app.py"] (ex_config (PList [PStr "pushplus"])) (Ret tt))
              world_signed
              (ex_config (PList [PStr "pushplus"])) tr st
              eq_refl eq_refl eq_refl E)
    as (users & joined & c' & _ & _ & J & C & G & _).
  exists tr, st, joined, c'. split; [exact E|]. split; [exact C|].
  split; [exact G|].
  pose proof (f_equal snd E) as Hs. vm_compute in Hs.
  injection Hs as Hs. subst st. vm_compute in J. injection J as J.
  subst joined. vm_compute. reflexivity.
Defined.

(** X28: Action mode, when [main] returns: the configuration object is not
    touched, and either the joined credentials were written to the secret
    and the channels were entered once, for the report, or the join or the
    write raised, no secret is recorded and the channels were entered a
    second time, for the alert. *)
Theorem main_action_mode_secret_or_alert :
  forall (p : process) (w : world) (config : pyval) (configured : list string)
         (tr : list event) (st : main_state),
    by_action_of (argv p) = true ->
    load_config p = Ret config ->
    py_truthy config = true ->
    configured_push_types config = Ret configured ->
    main p w = (tr, Ret st) ->
    let creds := map SignIn.result_refresh_token (results_of st) in
    let attempted := filter (fun n => str_in n configured) known_channels in
    config_after st = Some config
    /\ ((exists joined,
           py_join "," creds = Ret joined
           /\ update_secret p "REFRESH_TOKENS" joined = Ret tt
           /\ secret_written st = Some joined
           /\ pushed tr = attempted)
        \/ (((exists e, py_join "," creds = Raise e)
             \/ (exists joined e,
                   py_join "," creds = Ret joined
                   /\ update_secret p "REFRESH_TOKENS" joined = Raise e))
            /\ secret_written st = None
            /\ pushed tr = (attempted ++ attempted)%list)).
Proof.
  intros p w config configured tr st Ha Hc Ht Hp H creds attempted.
  destruct (main_inv p w config tr st Hc Ht H)
    as (users & results & t1 & t2 & t3 & v & Hu & R & P & U & Htr).
  pose proof (run_users_quiet config users w) as Q1. rewrite R in Q1.
  simpl in Q1.
  destruct (push_pushed _ _ _ _ _ _ _ _ Hp P) as (_ & Q2).
  assert (Hpush : pushed tr = (attempted ++ pushed t3)%list).
  { subst tr. rewrite !pushed_app, Q1, Q2. reflexivity. }
  rewrite Ha in U. unfold update_refresh_tokens in U.
  cbn [negb] in U. cbv beta iota zeta in U.
  unfold try_except, bind, lift, ret in U.
  assert (Alert : forall err t,
             (let (t2, r) :=
                match push config (PStr err) (PStr err) report_title w with
                | (t1, Ret _) =>
                    ((t1 ++ [])%list,
                     Ret {| environ_after := env_set (environ p) "NO_PROXY" "*";
                            results_of := results;
                            config_after := Some config;
                            secret_written := None |})
                | (t1, Raise e) => (t1, Raise e)
                end in ((t ++ t2)%list, r)) = (t3, Ret st) ->
             pushed t = [] ->
             results_of st = results /\ config_after st = Some config
             /\ secret_written st = None /\ pushed t3 = attempted).
  { intros err t A Ht0.
    destruct (push config (PStr err) (PStr err) report_title w)
      as [ta [va|ea]] eqn:PA; [|discriminate].
    injection A as A1 A2. subst t3 st. simpl.
    destruct (push_pushed _ _ _ _ _ _ _ _ Hp PA) as (_ & Q3).
    repeat split. rewrite !pushed_app, Ht0, Q3. simpl. apply app_nil_r. }
  destruct (py_join "," (map SignIn.result_refresh_token results))
    as [joined|e] eqn:J.
  - destruct (update_secret p "REFRESH_TOKENS" joined) as [[]|e] eqn:S.
    + simpl in U. injection U as U1 U2. subst t3 st. simpl.
      split; [reflexivity|]. left. exists joined.
      unfold creds. simpl. repeat split; try assumption.
      rewrite Hpush. simpl. apply app_nil_r.
    + cbv beta iota in U.
      destruct (Alert _ _ U eq_refl) as (A1 & A2 & A3 & A4).
      split; [exact A2|]. right. unfold creds. rewrite A1.
      split; [right; exists joined, e; split; assumption|].
      split; [exact A3|]. rewrite Hpush, A4. reflexivity.
  - cbv beta iota in U.
    destruct (Alert _ _ U eq_refl) as (A1 & A2 & A3 & A4).
    split; [exact A2|]. right. unfold creds. rewrite A1.
    split; [left; exists e; exact J|].
    split; [exact A3|]. rewrite Hpush, A4. reflexivity.
Qed.

Lemma main_action_mode_secret_or_alert_witness :
  exists tr st,
    main (ex_process ["app.py"; "action"] PNone (Raise RequestException))
         world_signed = (tr, Ret st)
    /\ secret_written st = None
    /\ pushed tr = ["telegram"; "pushplus"; "telegram"; "pushplus"].
Proof.
  assert (E : exists tr st cfg,
             main (ex_process ["app.py"; "action"] PNone (Raise RequestException))
                  world_signed = (tr, Ret st)
             /\ load_config (ex_process ["app.py"; "action"] PNone
                               (Raise RequestException)) = Ret cfg
             /\ py_truthy cfg = true
             /\ configured_push_types cfg = Ret ["telegram"; "pushplus"])
    by (do 3 eexists; repeat split; reflexivity).
  destruct E as (tr & st & cfg & E & L & T & C).
  destruct (main_action_mode_secret_or_alert
              (ex_process ["app.py"; "action"] PNone (Raise RequestException))
              world_signed cfg ["telegram"; "pushplus"] tr st
              eq_refl L T C E)
    as (_ & [(joined & _ & S & _) | (_ & W & P)]).
  - discriminate S.
  - exists tr, st. split; [exact E|]. split; [exact W | exact P].
Defined.

Lemma telegram_push_trace
    (config token chat_id proxy content content_html title : pyval)
    (endpoint : string) (w : world) :
  telegram_configured config (PStr endpoint) token chat_id proxy ->
  fst (telegram.push config content content_html title w)
  = [EvPost (telegram_request endpoint token chat_id proxy title content_html)].
Proof.
  intros (H1 & T1 & H2 & T2 & H3 & T3 & H4).
  unfold telegram.push, telegram.Pusher_send. unfold_M.
  rewrite H1, T1. cbn [negb]. cbv beta iota.
  rewrite H2, T2. cbn [negb]. cbv beta iota.
  rewrite H3, T3. cbn [negb]. cbv beta iota.
  rewrite H4. unfold telegram_request.
  match goal with
  | |- context [http_post w ?r] => destruct (http_post w r) as [resp|e]
  end; [|reflexivity].
  destruct (status_code resp =? 200); [|reflexivity].
  destruct (json_body resp); reflexivity.
Qed.

(** X23: Action mode and Telegram together: with the configuration read from the
    environment and a bot token and chat id that are not empty, the one
    request of the Telegram channel goes to the public endpoint
    [https://api.telegram.org/bot<token>/sendMessage], with no proxy. *)
Theorem env_config_telegram_request :
  forall (env : environment) (cfg content content_html title : pyval)
         (tb tc : string) (w : world),
    get_config_from_env env = Ret cfg ->
    env_lookup env "TELEGRAM_BOT_TOKEN" = Some tb ->
    env_lookup env "TELEGRAM_CHAT_ID" = Some tc ->
    tb <> "" -> tc <> "" ->
    (forall k, In k required_env -> env_lookup env k <> None) ->
    exists req,
      fst (telegram.push cfg content content_html title w) = [EvPost req]
      /\ url req = "https://api.telegram.org/bot" ++ tb ++ "/sendMessage"
      /\ proxies req = PNone
      /\ timeout req = Some 10.
Proof.
  intros env cfg content content_html title tb tc w Hg Hb Hc Nb Nc Hall.
  destruct (get_config_from_env_cases env)
    as [(k & Hk & Hn & _)
       | (rt & pt & tb' & tc' & ppt & cfg' & _ & _ & E3 & E4 & _ & _ & Hg' & _
          & _ & _ & G3 & G4 & G5 & G6 & _)].
  - destruct (Hall k Hk Hn).
  - rewrite Hg in Hg'. injection Hg' as Hg'. subst cfg'.
    rewrite Hb in E3. injection E3 as E3. rewrite Hc in E4. injection E4 as E4.
    subst tb' tc'.
    assert (TC : telegram_configured cfg (PStr "https://api.telegram.org")
                   (PStr tb) (PStr tc) PNone).
    { unfold telegram_configured. repeat split; try assumption.
      - simpl. destruct (String.eqb_spec tb ""); [contradiction | reflexivity].
      - simpl. destruct (String.eqb_spec tc ""); [contradiction | reflexivity]. }
    eexists. split; [apply (telegram_push_trace _ _ _ _ _ _ _ _ _ TC)|].
    repeat split.
Qed.

Lemma env_config_telegram_request_witness :
  exists cfg req,
    get_config_from_env ex_environ = Ret cfg
    /\ fst (telegram.push cfg (PStr "text") (PStr "html") (PStr "title")
              world_signed) = [EvPost req]
    /\ url req = "https://api.telegram.org/bot123:abc/sendMessage"
    /\ proxies req = PNone.
Proof.
  assert (E : exists cfg, get_config_from_env ex_environ = Ret cfg)
    by (eexists; reflexivity).
  destruct E as (cfg & E).
  destruct (env_config_telegram_request ex_environ cfg (PStr "text")
              (PStr "html") (PStr "title") "123:abc" "42" world_signed E)
    as (req & H1 & H2 & H3 & _).
  - reflexivity.
  - reflexivity.
  - discriminate.
  - discriminate.
  - intros k Hk. simpl in Hk.
    repeat (destruct Hk as [Hk|Hk]; [subst k; discriminate|]). contradiction.
  - exists cfg, req. split; [exact E|]. split; [exact H1|].
    split; [exact H2 | exact H3].
Defined.
